(** * YouTube downloader front ends

    A shallow embedding of the three React components of the repository:

    - [App] (frontend/src/App.tsx): format lookup against [/formats], then a
      streamed download from [/download] saved through a temporary anchor;
    - [YouTubeDownloader] and [YouTubeDownLoader] (the two card prototypes):
      one request to [/api/download] answered by a link.

    An [async] handler is embedded as a program over the operations it performs
    (state setters, [fetch], DOM calls); [run] executes it against a world that
    answers [fetch] and [createObjectURL].  The state a component shows is the
    fold of the setter calls over the state it was rendered with.  A handler
    reads [url] and [selectedFormat] from the render it was created in, and the
    buttons are disabled while [loading], so handlers run one after the
    other. *)

From Stdlib Require Import String Ascii List Bool Arith Lia DecimalString.
Import ListNotations.
Local Open Scope string_scope.
Set Warnings "-register-all".

(* ================================================================== *)
(** ** JavaScript values                                               *)
(* ================================================================== *)

Module JS.

(** Every object thrown in the handlers is an [Error] (or a subclass: the
    [TypeError] of a rejected [fetch] or of a property read on [undefined], the
    [SyntaxError] of [response.json()]); the handlers read its [message] only. *)
Record Exn := Error { exn_message : string }.

(** The outcome of an expression or of an awaited promise. *)
Inductive Result (A : Type) :=
| Value (a : A)
| Thrown (e : Exn).
Arguments Value {A} a.
Arguments Thrown {A} e.

Definition and_then {A C : Type} (r : Result A) (f : A -> Result C) : Result C :=
  match r with
  | Value a => f a
  | Thrown e => Thrown e
  end.

(** What the engine and the browser fix and the source does not: the number
    type with its truthiness and printing, the message of the [TypeError] for a
    property read on [undefined] ([false]) or [null] ([true]), and the check of
    an [<input type="url">] value (a valid absolute URL). *)
Class Browser := {
  number : Type;
  number_truthy : number -> bool;
  number_to_string : number -> string;
  type_error_message : bool -> string -> string;
  url_type_ok : string -> bool
}.

Section Values.
Context {B : Browser}.

(** The values [response.json()] can produce, and [undefined].  A string is its
    sequence of code units (below 256 here); an object is the list of its own
    properties. *)
Inductive value :=
| VUndefined
| VNull
| VBool (b : bool)
| VNum (n : number)
| VStr (s : string)
| VArr (items : list value)
| VObj (fields : list (string * value)).

(** ToBoolean. *)
Definition truthy (v : value) : bool :=
  match v with
  | VUndefined | VNull => false
  | VBool b => b
  | VNum n => number_truthy n
  | VStr s => negb (s =? "")
  | VArr _ | VObj _ => true
  end.

(** [a || b]. *)
Definition or_else (a b : value) : value := if truthy a then a else b.

(** [a || b] at type string. *)
Definition or_else_string (a b : string) : string := if a =? "" then b else a.

Fixpoint join (sep : string) (l : list string) : string :=
  match l with
  | [] => ""
  | [x] => x
  | x :: rest => x ++ sep ++ join sep rest
  end.

(** ToString, as applied by [new Error(m)], by a template literal and by the
    assignment to a DOM attribute. *)
Fixpoint to_string (v : value) : string :=
  match v with
  | VUndefined => "undefined"
  | VNull => "null"
  | VBool true => "true"
  | VBool false => "false"
  | VNum n => number_to_string n
  | VStr s => s
  | VArr items =>
      join "," (map (fun x => match x with
                              | VUndefined | VNull => ""
                              | _ => to_string x
                              end) items)
  | VObj _ => "[object Object]"
  end.

Fixpoint assoc (k : string) (fields : list (string * value)) : option value :=
  match fields with
  | [] => None
  | (k', v) :: rest => if k' =? k then Some v else assoc k rest
  end.

Definition from_option (o : option value) : value :=
  match o with Some v => v | None => VUndefined end.

(** [v.k] for a property name [k] that is neither an array index, nor [length],
    nor a member of a built-in prototype (the names the components read are
    [formats], [format_id], [message] and [downloadUrl]). *)
Definition get (v : value) (k : string) : Result value :=
  match v with
  | VUndefined => Thrown (Error (type_error_message false k))
  | VNull => Thrown (Error (type_error_message true k))
  | VObj fields => Value (from_option (assoc k fields))
  | VBool _ | VNum _ | VStr _ | VArr _ => Value VUndefined
  end.

Definition index_key (i : nat) : string := NilZero.string_of_uint (Nat.to_uint i).

(** [v[i]] for a literal index [i]. *)
Definition get_index (v : value) (i : nat) : Result value :=
  match v with
  | VUndefined => Thrown (Error (type_error_message false (index_key i)))
  | VNull => Thrown (Error (type_error_message true (index_key i)))
  | VArr items => Value (nth i items VUndefined)
  | VStr s => Value (match String.get i s with
                     | Some c => VStr (String c "")
                     | None => VUndefined
                     end)
  | VObj fields => Value (from_option (assoc (index_key i) fields))
  | VBool _ | VNum _ => Value VUndefined
  end.

(** [v?.k]. *)
Definition get_optional (v : value) (k : string) : Result value :=
  match v with
  | VUndefined | VNull => Value VUndefined
  | _ => get v k
  end.

(** Constraint validation of [<input type="url" required>]: the browser fires
    [submit] on the form only when the value is present and a valid URL. *)
Definition form_valid (u : string) : bool :=
  negb (u =? "") && url_type_ok u.

End Values.
End JS.

(* ================================================================== *)
(** ** Regular expressions                                             *)
(* ================================================================== *)

(** The backtracking matcher of ECMAScript, for the patterns built from
    characters, [.], a greedy [+] on a single-character atom, capture groups
    and concatenation. *)
Module RegExp.

Inductive atom :=
| AChar (c : ascii)
| ADot.

Inductive regex :=
| Atom (a : atom)
| Plus (a : atom)
| Group (n : nat) (r : regex)
| Seq (r1 r2 : regex).

(** Line terminators among the code units below 256: LF and CR. *)
Definition line_terminator (c : ascii) : bool :=
  (c =? "010")%char || (c =? "013")%char.

Definition atom_matches (a : atom) (c : ascii) : bool :=
  match a with
  | AChar c' => (c' =? c)%char
  | ADot => negb (line_terminator c)
  end.

(** Captures of groups 1, 2, ...; [None] is a group that did not take part. *)
Definition captures := list (option string).

Fixpoint set_capture (n : nat) (s : string) (caps : captures) : captures :=
  match n, caps with
  | 0, _ => caps
  | 1, [] => [Some s]
  | 1, _ :: rest => Some s :: rest
  | S n', [] => None :: set_capture n' s []
  | S n', c :: rest => c :: set_capture n' s rest
  end.

(** The part of [s] that was consumed when [t] is what remains of it. *)
Definition consumed (s t : string) : string :=
  substring 0 (String.length s - String.length t) s.

Section Matcher.
Context {R : Type}.

(** [a+], greedy: after one [a], more of them are tried before the
    continuation. *)
Fixpoint plus_greedy (a : atom) (s : string) (k : string -> option R) : option R :=
  match s with
  | EmptyString => None
  | String c t =>
      if atom_matches a c then
        match plus_greedy a t k with
        | Some r => Some r
        | None => k t
        end
      else None
  end.

Fixpoint matcher (r : regex) (s : string) (caps : captures)
    (k : string -> captures -> option R) : option R :=
  match r with
  | Atom a =>
      match s with
      | String c t => if atom_matches a c then k t caps else None
      | EmptyString => None
      end
  | Plus a => plus_greedy a s (fun t => k t caps)
  | Group n r1 =>
      matcher r1 s caps (fun t caps' => k t (set_capture n (consumed s t) caps'))
  | Seq r1 r2 =>
      matcher r1 s caps (fun t caps' => matcher r2 t caps' k)
  end.

End Matcher.

(** The array [exec] returns: element 0 is the match, element [i] group [i]. *)
Record MatchResult := {
  index : nat;
  matched : string;
  groups : captures
}.

Definition match_here (r : regex) (s : string) : option (string * captures) :=
  matcher r s [] (fun t caps => Some (t, caps)).

(** [exec] without the global flag: the first start position, from the left,
    at which the pattern matches. *)
Fixpoint exec_from (r : regex) (i : nat) (s : string) : option MatchResult :=
  match match_here r s with
  | Some (t, caps) =>
      Some {| index := i; matched := consumed s t; groups := caps |}
  | None =>
      match s with
      | EmptyString => None
      | String _ t => exec_from r (S i) t
      end
  end.

(** [s.match(r)] for a pattern without the global flag. *)
Definition string_match (s : string) (r : regex) : option MatchResult :=
  exec_from r 0 s.

(** A literal run of pattern characters followed by [r]. *)
Fixpoint chars (s : string) (r : regex) : regex :=
  match s with
  | EmptyString => r
  | String c t => Seq (Atom (AChar c)) (chars t r)
  end.

(** The double quote, code unit 34. *)
Definition quote : ascii := "034"%char.

(** ["(.+)"]: the opening quote, the group, the closing quote. *)
Definition quoted : regex :=
  Seq (Atom (AChar quote)) (Seq (Group 1 (Plus ADot)) (Atom (AChar quote))).

(** [/filename="(.+)"/] *)
Definition filename_pattern : regex := chars "filename=" quoted.

End RegExp.

(* ================================================================== *)
(** ** Handlers as programs                                            *)
(* ================================================================== *)

Module Effects.
Import JS.

Definition Blob := list Byte.byte.

Section Programs.
Context {B : Browser}.

(** The body of a request: the JSON text of a value. *)
Inductive Body := JSON_stringify (v : value).

(** [fetch(endpoint, {method, headers, body})] *)
Record Request := {
  endpoint : string;
  method : string;
  headers : list (string * string);
  body : Body
}.

(** A response, through the four members the handlers use; [json] and [blob]
    are the outcomes of the awaited [response.json()] and [response.blob()]. *)
Record Response := {
  ok : bool;
  headers_get : string -> option string;
  json : Result value;
  blob : Result Blob
}.

(** The operations a handler performs on its surroundings, in source order:
    state setters of the three components, [fetch], and the DOM calls of the
    anchor that saves a blob. *)
Inductive Op :=
| PreventDefault
| SetLoading (b : bool)
| SetMessage (s : string)
| SetError (s : string)
| SetVideoInfo (v : value)
| SetSelectedFormat (v : value)
| SetDownloadLink (v : value)
| Fetch (req : Request)
| CreateObjectURL (b : Blob)
| CreateElement (tag : string)
| SetHref (u : string)
| SetDownloadAttribute (name : string)
| AppendChild
| Click
| RevokeObjectURL (u : string)
| RemoveChild.

(** What an operation gives back. *)
Definition Ans (o : Op) : Type :=
  match o with
  | Fetch _ => Result Response
  | CreateObjectURL _ => string
  | _ => unit
  end.

Inductive Prog (A : Type) :=
| Ret (a : A)
| Throw (e : Exn)
| Vis (o : Op) (k : Ans o -> Prog A).
Arguments Ret {A} a.
Arguments Throw {A} e.
Arguments Vis {A} o k.

Fixpoint bind {A C : Type} (p : Prog A) (f : A -> Prog C) : Prog C :=
  match p with
  | Ret a => f a
  | Throw e => Throw e
  | Vis o k => Vis o (fun x => bind (k x) f)
  end.

(** [try { body } catch (err) { handler err }] *)
Fixpoint try_catch {A : Type} (body : Prog A) (handler : Exn -> Prog A) : Prog A :=
  match body with
  | Ret a => Ret a
  | Throw e => handler e
  | Vis o k => Vis o (fun x => try_catch (k x) handler)
  end.

(** [try { body } finally { final }] *)
Fixpoint finally {A : Type} (body : Prog A) (final : Prog unit) : Prog A :=
  match body with
  | Ret a => bind final (fun _ => Ret a)
  | Throw e => bind final (fun _ => Throw e)
  | Vis o k => Vis o (fun x => finally (k x) final)
  end.

Definition try_catch_finally {A : Type} (body : Prog A) (handler : Exn -> Prog A)
    (final : Prog unit) : Prog A :=
  finally (try_catch body handler) final.

(** A call whose result is not used. *)
Definition call (o : Op) : Prog unit := Vis o (fun _ => Ret tt).

(** An awaited promise or an expression that may throw. *)
Definition lift {A : Type} (r : Result A) : Prog A :=
  match r with
  | Value a => Ret a
  | Thrown e => Throw e
  end.

Definition fetch (req : Request) : Prog Response := Vis (Fetch req) lift.

Definition createObjectURL (b : Blob) : Prog string :=
  Vis (CreateObjectURL b) (fun u => Ret u).

(** [if (c) throw new Error(m)] *)
Definition throw_if (c : bool) (m : string) : Prog unit :=
  if c then Throw (Error m) else Ret tt.

(** The surroundings: what [fetch] and [createObjectURL] answer, given the
    operations performed so far. *)
Record World := {
  net : list Op -> Request -> Result Response;
  object_url : list Op -> Blob -> string
}.

Definition respond (w : World) (history : list Op) (o : Op) : Ans o :=
  match o return Ans o with
  | Fetch req => net w history req
  | CreateObjectURL b => object_url w history b
  | _ => tt
  end.

(** The operations performed by [p], in order, and its outcome. *)
Fixpoint run {A : Type} (w : World) (history : list Op) (p : Prog A)
    : list Op * Result A :=
  match p with
  | Ret a => ([], Value a)
  | Throw e => ([], Thrown e)
  | Vis o k =>
      let '(t, r) := run w (history ++ [o])%list (k (respond w history o)) in
      (o :: t, r)
  end.

Definition trace {A : Type} (w : World) (history : list Op) (p : Prog A) : list Op :=
  fst (run w history p).

(** The requests sent, in order. *)
Fixpoint requests (t : list Op) : list Request :=
  match t with
  | [] => []
  | Fetch req :: rest => req :: requests rest
  | _ :: rest => requests rest
  end.

(** The answers to those requests, in order. *)
Fixpoint responses (w : World) (history : list Op) (t : list Op)
    : list (Result Response) :=
  match t with
  | [] => []
  | o :: rest =>
      match o with
      | Fetch req => net w history req :: responses w (history ++ [o])%list rest
      | _ => responses w (history ++ [o])%list rest
      end
  end.

(** The values passed to [setError], in order. *)
Fixpoint errors_set (t : list Op) : list string :=
  match t with
  | [] => []
  | SetError s :: rest => s :: errors_set rest
  | _ :: rest => errors_set rest
  end.

(** The operations that precede the first [fetch]. *)
Fixpoint before_fetch (t : list Op) : list Op :=
  match t with
  | [] => []
  | Fetch _ :: _ => []
  | o :: rest => o :: before_fetch rest
  end.

(** The anchor a handler builds, and the object URLs that are alive. *)
Record Dom := {
  href : string;
  download : string;
  live : list (string * Blob)
}.

Definition dom0 : Dom := {| href := ""; download := ""; live := [] |}.

Fixpoint resolve (u : string) (l : list (string * Blob)) : option Blob :=
  match l with
  | [] => None
  | (u', b) :: rest => if u' =? u then Some b else resolve u rest
  end.

(** The files the browser saves while the operations of [t] are performed: a
    click on an anchor whose [href] is a live object URL saves the blob behind
    it under the name in the [download] attribute. *)
Fixpoint saved (w : World) (history : list Op) (d : Dom) (t : list Op)
    : list (string * Blob) :=
  match t with
  | [] => []
  | o :: rest =>
      let history' := (history ++ [o])%list in
      match o with
      | CreateObjectURL b =>
          saved w history'
            {| href := href d; download := download d;
               live := (object_url w history b, b) :: live d |} rest
      | CreateElement _ =>
          saved w history' {| href := ""; download := ""; live := live d |} rest
      | SetHref u =>
          saved w history' {| href := u; download := download d; live := live d |} rest
      | SetDownloadAttribute n =>
          saved w history' {| href := href d; download := n; live := live d |} rest
      | RevokeObjectURL u =>
          saved w history'
            {| href := href d; download := download d;
               live := filter (fun p => negb (fst p =? u)) (live d) |} rest
      | Click =>
          match resolve (href d) (live d) with
          | Some b => (download d, b) :: saved w history' d rest
          | None => saved w history' d rest
          end
      | _ => saved w history' d rest
      end
  end.

End Programs.

Arguments Ret {B A} a.
Arguments Throw {B A} e.
Arguments Vis {B A} o k.

Declare Scope prog_scope.
Delimit Scope prog_scope with prog.
Notation "x <- p ;; q" := (bind p (fun x => q))
  (at level 61, p at next level, right associativity) : prog_scope.
Notation "p ;; q" := (bind p (fun _ => q))
  (at level 61, right associativity) : prog_scope.

End Effects.

(* ================================================================== *)
(** ** frontend/src/App.tsx                                            *)
(* ================================================================== *)

Module App.
Import JS Effects RegExp.
Local Open Scope prog_scope.

Section Component.
Context {B : Browser}.

(** [interface VideoFormat] *)
Record VideoFormat := {
  format_id : string;
  ext : string;
  resolution : string;
  filesize : option number;
  note : string;
  has_video : bool;
  has_audio : bool
}.

(** [interface VideoInfo] *)
Record VideoInfo := {
  title : string;
  thumbnail : option string;
  duration : option number;
  formats : list VideoFormat
}.

(** An optional property: absent when there is no value. *)
Definition optional (k : string) (o : option value) : list (string * value) :=
  match o with
  | Some v => [(k, v)]
  | None => []
  end.

(** The JavaScript object of a [VideoFormat]. *)
Definition format_object (f : VideoFormat) : value :=
  VObj ([("format_id", VStr (format_id f));
         ("ext", VStr (ext f));
         ("resolution", VStr (resolution f))]
        ++ optional "filesize" (option_map VNum (filesize f))
        ++ [("note", VStr (note f));
            ("has_video", VBool (has_video f));
            ("has_audio", VBool (has_audio f))])%list.

(** The JavaScript object of a [VideoInfo]. *)
Definition info_object (vi : VideoInfo) : value :=
  VObj ([("title", VStr (title vi))]
        ++ optional "thumbnail" (option_map VStr (thumbnail vi))
        ++ optional "duration" (option_map VNum (duration vi))
        ++ [("formats", VArr (map format_object (formats vi)))])%list.

(** The six [useState] cells.  At run time [videoInfo] holds whatever
    [response.json()] produced ([null] at first) and [selectedFormat] whatever
    was read out of it. *)
Record State := {
  url : string;
  loading : bool;
  message : string;
  error : string;
  videoInfo : value;
  selectedFormat : value
}.

Definition initial : State :=
  {| url := ""; loading := false; message := ""; error := "";
     videoInfo := VNull; selectedFormat := VStr "" |}.

Definition setUrl (v : string) (s : State) : State :=
  {| url := v; loading := loading s; message := message s; error := error s;
     videoInfo := videoInfo s; selectedFormat := selectedFormat s |}.

(** The effect of one operation on the state cells. *)
Definition apply (s : State) (o : Op) : State :=
  match o with
  | SetLoading b =>
      {| url := url s; loading := b; message := message s; error := error s;
         videoInfo := videoInfo s; selectedFormat := selectedFormat s |}
  | SetMessage m =>
      {| url := url s; loading := loading s; message := m; error := error s;
         videoInfo := videoInfo s; selectedFormat := selectedFormat s |}
  | SetError e =>
      {| url := url s; loading := loading s; message := message s; error := e;
         videoInfo := videoInfo s; selectedFormat := selectedFormat s |}
  | SetVideoInfo v =>
      {| url := url s; loading := loading s; message := message s; error := error s;
         videoInfo := v; selectedFormat := selectedFormat s |}
  | SetSelectedFormat v =>
      {| url := url s; loading := loading s; message := message s; error := error s;
         videoInfo := videoInfo s; selectedFormat := v |}
  | _ => s
  end.

Definition final (s : State) (t : list Op) : State := fold_left apply t s.

Definition json_headers : list (string * string) :=
  [("Content-Type", "application/json")].

Definition formats_request (u : string) : Request :=
  {| endpoint := "http://localhost:8000/formats";
     method := "POST";
     headers := json_headers;
     body := JSON_stringify (VObj [("url", VStr u)]) |}.

Definition download_request (u : string) (format : value) : Request :=
  {| endpoint := "http://localhost:8000/download";
     method := "POST";
     headers := json_headers;
     body := JSON_stringify (VObj [("url", VStr u); ("format_id", format)]) |}.

(** [data.formats[0]?.format_id || ''], line 51. *)
Definition first_format_id (data : value) : Result value :=
  and_then (get data "formats") (fun formats =>
  and_then (get_index formats 0) (fun first =>
  and_then (get_optional first "format_id") (fun id =>
  Value (or_else id (VStr ""))))).

(** [handleUrlSubmit], lines 29-57; [s] is the state of the render whose
    closure the handler is. *)
Definition handleUrlSubmit (s : State) : Prog unit :=
  call PreventDefault ;;
  call (SetLoading true) ;;
  call (SetMessage "") ;;
  call (SetError "") ;;
  call (SetVideoInfo VNull) ;;
  try_catch_finally
    (response <- fetch (formats_request (url s)) ;;
     throw_if (negb (ok response)) "Failed to get video information" ;;
     data <- lift (json response) ;;
     call (SetVideoInfo data) ;;
     selected <- lift (first_format_id data) ;;
     call (SetSelectedFormat selected))
    (fun err =>
       call (SetError (or_else_string (exn_message err) "Something went wrong")))
    (call (SetLoading false)).

(** [m[i]] on the array of a match. *)
Definition element (m : MatchResult) (i : nat) : value :=
  match i with
  | 0 => VStr (matched m)
  | S j => match nth j (groups m) None with
           | Some c => VStr c
           | None => VUndefined
           end
  end.

(** [contentDisposition && contentDisposition.match(/filename="(.+)"/)],
    as far as its truthiness and its elements go. *)
Definition filenameMatch (contentDisposition : option string) : option MatchResult :=
  match contentDisposition with
  | None => None
  | Some h => if h =? "" then None else string_match h filename_pattern
  end.

(** [filenameMatch ? filenameMatch[1] : 'video.mp4'] *)
Definition filename (contentDisposition : option string) : value :=
  match filenameMatch contentDisposition with
  | Some m => element m 1
  | None => VStr "video.mp4"
  end.

(** [handleDownload], lines 59-101. *)
Definition handleDownload (s : State) : Prog unit :=
  call (SetLoading true) ;;
  call (SetMessage "Starting download...") ;;
  try_catch_finally
    (response <- fetch (download_request (url s) (selectedFormat s)) ;;
     throw_if (negb (ok response)) "Download failed" ;;
     let contentDisposition := headers_get response "Content-Disposition" in
     let name := filename contentDisposition in
     blob <- lift (blob response) ;;
     downloadUrl <- createObjectURL blob ;;
     call (CreateElement "a") ;;
     call (SetHref downloadUrl) ;;
     call (SetDownloadAttribute (to_string name)) ;;
     call AppendChild ;;
     call Click ;;
     call (RevokeObjectURL downloadUrl) ;;
     call RemoveChild ;;
     call (SetMessage ("Download complete: " ++ to_string name)))
    (fun err => call (SetError (or_else_string (exn_message err) "Download failed")))
    (call (SetLoading false)).

(** *** The rendered page *)

Fixpoint traverse {X Y : Type} (f : X -> option Y) (l : list X) : option (list Y) :=
  match l with
  | [] => Some []
  | x :: rest =>
      match f x, traverse f rest with
      | Some y, Some ys => Some (y :: ys)
      | _, _ => None
      end
  end.

(** The [value]s of the [<option>]s, [videoInfo.formats.map(...)]; [None] when
    rendering them throws. *)
Definition options (s : State) : option (list value) :=
  match get (videoInfo s) "formats" with
  | Value (VArr items) =>
      traverse (fun format => match get format "format_id" with
                              | Value v => Some v
                              | Thrown _ => None
                              end) items
  | _ => None
  end.

(** The items of [videoInfo.formats], when it is an array. *)
Definition formats_items (s : State) : option (list value) :=
  match get (videoInfo s) "formats" with
  | Value (VArr items) => Some items
  | _ => None
  end.

(** A value as a child of an element: React throws on an object, renders an
    array item by item, and renders nothing for booleans, [null] and
    [undefined]. *)
Fixpoint renderable (v : value) : bool :=
  match v with
  | VObj _ => false
  | VArr items => forallb renderable items
  | _ => true
  end.

(** The text a child leaves in the DOM. *)
Fixpoint child_text (v : value) : string :=
  match v with
  | VStr t => t
  | VNum n => number_to_string n
  | VArr items => String.concat "" (map child_text items)
  | _ => ""
  end.

(** [v.k] where [v] is known not to be [null] or [undefined]. *)
Definition member (v : value) (k : string) : value :=
  match get v k with
  | Value x => x
  | Thrown _ => VUndefined
  end.

(** The children of an option:
    [{format.resolution} - {format.note} ({format.ext})]. *)
Definition label (format : value) : list value :=
  [member format "resolution"; VStr " - "; member format "note"; VStr " (";
   member format "ext"; VStr ")"].

Definition ascii_whitespace (c : ascii) : bool :=
  (c =? "009")%char || (c =? "010")%char || (c =? "012")%char
  || (c =? "013")%char || (c =? " ")%char.

(** Stripping and collapsing ASCII whitespace, as the [text] of an option
    does; [started] once a character was kept, [gap] when whitespace was met
    since. *)
Fixpoint strip_collapse (started gap : bool) (t : string) : string :=
  match t with
  | EmptyString => ""
  | String c rest =>
      if ascii_whitespace c then strip_collapse started started rest
      else
        let kept := String c (strip_collapse true false rest) in
        if gap then String " " kept else kept
  end.

(** What [e.target.value] is when the option of [format] is chosen: the string
    of its [value] prop, and its text when React leaves the attribute out (the
    prop is [null] or [undefined]). *)
Definition option_value (format : value) : string :=
  match member format "format_id" with
  | VUndefined | VNull =>
      strip_collapse false false (String.concat "" (map child_text (label format)))
  | v => to_string v
  end.

(** Whether [<h2>{videoInfo.title}</h2>] and the select can be rendered: every
    expression evaluates and every child is one React accepts. *)
Definition section_renders (s : State) : bool :=
  match options s, formats_items s with
  | Some _, Some items =>
      renderable (member (videoInfo s) "title")
      && forallb (fun format => forallb renderable (label format)) items
  | _, _ => false
  end.

(** [{videoInfo && ...}]: the title, the select and the download button are on
    the page, which takes a truthy [videoInfo] that can be rendered. *)
Definition download_section (s : State) : bool :=
  truthy (videoInfo s) && section_renders s.

(** Whether [App] is on the page at all: a render that throws (a truthy
    [videoInfo] that cannot be rendered) unmounts the whole component, form
    and alerts included. *)
Definition renders (s : State) : bool :=
  negb (truthy (videoInfo s)) || section_renders s.

(** [{message && ...}] and [{error && ...}], on a page that renders. *)
Definition message_shown (s : State) : bool :=
  renders s && negb (message s =? "").
Definition error_shown (s : State) : bool :=
  renders s && negb (error s =? "").

(** What the user can do on the page. *)
Inductive Event :=
| ChangeUrl (v : string)
| SubmitForm
| SelectFormat (v : string)
| ClickDownload.

(** Whether the page, as rendered from [s], lets the event reach its handler:
    the input and the form exist while [App] renders; the submit button is
    [disabled={loading}] and the form is validated; only a rendered option can
    be chosen; the download button exists with the download section and is
    [disabled={loading}]. *)
Definition enabled (s : State) (ev : Event) : bool :=
  match ev with
  | ChangeUrl _ => renders s
  | SubmitForm => renders s && negb (loading s) && form_valid (url s)
  | SelectFormat v =>
      download_section s &&
      match formats_items s with
      | Some items => existsb (fun format => option_value format =? v) items
      | None => false
      end
  | ClickDownload => download_section s && negb (loading s)
  end.

(** One event: the operations performed and the state afterwards.  A handler
    runs to completion before the next event (the buttons are disabled while
    [loading]). *)
Definition step (w : World) (history : list Op) (s : State) (ev : Event)
    : list Op * State :=
  if enabled s ev then
    match ev with
    | ChangeUrl v => ([], setUrl v s)
    | SubmitForm =>
        let t := trace w history (handleUrlSubmit s) in (t, final s t)
    | SelectFormat v =>
        let t := [SetSelectedFormat (VStr v)] in (t, final s t)
    | ClickDownload =>
        let t := trace w history (handleDownload s) in (t, final s t)
    end
  else ([], s).

(** A session: the events in order, from [s]; the operations accumulate. *)
Fixpoint session (w : World) (history : list Op) (s : State) (evs : list Event)
    : list Op * State :=
  match evs with
  | [] => ([], s)
  | ev :: rest =>
      let '(t, s') := step w history s ev in
      let '(t', s'') := session w (history ++ t)%list s' rest in
      ((t ++ t')%list, s'')
  end.

End Component.
End App.

(* ================================================================== *)
(** ** The card prototypes                                             *)
(* ================================================================== *)

(** What the two prototypes share: their four state cells and their page. *)
Module Card.
Import JS Effects.

Section Component.
Context {B : Browser}.

Record State := {
  url : string;
  loading : bool;
  error : string;
  downloadLink : value
}.

Definition initial : State :=
  {| url := ""; loading := false; error := ""; downloadLink := VStr "" |}.

Definition setUrl (v : string) (s : State) : State :=
  {| url := v; loading := loading s; error := error s;
     downloadLink := downloadLink s |}.

Definition apply (s : State) (o : Op) : State :=
  match o with
  | SetLoading b =>
      {| url := url s; loading := b; error := error s;
         downloadLink := downloadLink s |}
  | SetError e =>
      {| url := url s; loading := loading s; error := e;
         downloadLink := downloadLink s |}
  | SetDownloadLink v =>
      {| url := url s; loading := loading s; error := error s;
         downloadLink := v |}
  | _ => s
  end.

Definition final (s : State) (t : list Op) : State := fold_left apply t s.

Definition download_request (target u : string) : Request :=
  {| endpoint := target;
     method := "POST";
     headers := [("Content-Type", "application/json")];
     body := JSON_stringify (VObj [("url", VStr u)]) |}.

(** The attribute React writes for [href={v}]: none for [null], [undefined]
    and booleans, and the string of [v] otherwise. *)
Definition href_attribute (v : value) : option string :=
  match v with
  | VUndefined | VNull | VBool _ => None
  | _ => Some (to_string v)
  end.

(** [{downloadLink && <a href={downloadLink} download>...</a>}]: [None] when
    there is no link on the page, and otherwise the [href] attribute of the
    link, if it has one. *)
Definition link (s : State) : option (option string) :=
  if truthy (downloadLink s) then Some (href_attribute (downloadLink s)) else None.

(** [{error && <Alert>...}] *)
Definition error_shown (s : State) : bool := negb (error s =? "").

(** The submit button is [disabled={loading || !url}], and the input is
    [type="url" required]. *)
Definition submit_enabled (s : State) : bool :=
  negb (loading s || (url s =? "")) && form_valid (url s).

End Component.
End Card.

(** The first prototype, a relative endpoint and the body read before the
    status. *)
Module YouTubeDownloader.
Import JS Effects Card.
Local Open Scope prog_scope.

Section Component.
Context {B : Browser}.

(** [handleSubmit], lines 14-41. *)
Definition handleSubmit (s : State) : Prog unit :=
  call PreventDefault ;;
  call (SetLoading true) ;;
  call (SetError "") ;;
  call (SetDownloadLink (VStr "")) ;;
  try_catch_finally
    (response <- fetch (download_request "/api/download" (url s)) ;;
     data <- lift (json response) ;;
     (if negb (ok response) then
        m <- lift (get data "message") ;;
        Throw (Error (to_string (or_else m (VStr "Failed to download video"))))
      else Ret tt) ;;
     downloadUrl <- lift (get data "downloadUrl") ;;
     call (SetDownloadLink downloadUrl))
    (fun err => call (SetError (exn_message err)))
    (call (SetLoading false)).

Definition submit (w : World) (history : list Op) (s : State) : list Op * State :=
  if submit_enabled s then
    let t := trace w history (handleSubmit s) in (t, final s t)
  else ([], s).

End Component.
End YouTubeDownloader.

(** The second prototype, an absolute endpoint and the status checked first. *)
Module YouTubeDownLoader.
Import JS Effects Card.
Local Open Scope prog_scope.

Section Component.
Context {B : Browser}.

(** [handleSubmit], lines 126-152. *)
Definition handleSubmit (s : State) : Prog unit :=
  call PreventDefault ;;
  call (SetLoading true) ;;
  call (SetError "") ;;
  call (SetDownloadLink (VStr "")) ;;
  try_catch_finally
    (response <- fetch (download_request "http://localhost:8000/api/download" (url s)) ;;
     throw_if (negb (ok response)) "Failed to download video" ;;
     data <- lift (json response) ;;
     downloadUrl <- lift (get data "downloadUrl") ;;
     call (SetDownloadLink downloadUrl))
    (fun err => call (SetError (exn_message err)))
    (call (SetLoading false)).

Definition submit (w : World) (history : list Op) (s : State) : list Op * State :=
  if submit_enabled s then
    let t := trace w history (handleSubmit s) in (t, final s t)
  else ([], s).

End Component.
End YouTubeDownLoader.

(* ================================================================== *)
(** ** Vocabulary of the statements                                    *)
(* ================================================================== *)

Module Reading.
Import JS Effects RegExp.

(** No line terminator in [s]: every code unit is one [.] accepts. *)
Fixpoint all_dot (s : string) : bool :=
  match s with
  | EmptyString => true
  | String c t => negb (line_terminator c) && all_dot t
  end.

(** [filename="cap"] occurs in [h] after [pre] and before [post]. *)
Definition occurrence (h pre cap post : string) : Prop :=
  h = pre ++ "filename=" ++ String quote (cap ++ String quote post)
  /\ cap <> "" /\ all_dot cap = true.

(** What the first capture group of [/filename="(.+)"/] holds on [h]: the
    capture of the occurrence that starts first and, among those, extends
    furthest. *)
Definition first_capture (h cap : string) : Prop :=
  exists pre post,
    occurrence h pre cap post /\
    forall pre' cap' post', occurrence h pre' cap' post' ->
      String.length pre <= String.length pre' /\
      (String.length pre' = String.length pre ->
       String.length cap' <= String.length cap).

(** What [quoted] asks of the input after its [.+], when [body] is the input
    that follows the opening quote: the closing quote, and then the capture is
    what was read of [body]. *)
Definition closing (body : string) (t : string) : option (string * captures) :=
  match t with
  | String c t' =>
      if (quote =? c)%char then Some (t', [Some (consumed body t)]) else None
  | EmptyString => None
  end.

(** The header of section 6 of the specification:
    [Content-Disposition: attachment; filename="..."]. *)
Definition content_disposition (name : string) : string :=
  "attachment; filename=" ++ String quote (name ++ String quote "").

Section Views.
Context {B : Browser}.

(** The state cells as they stand when the first request of [t] goes out. *)
Definition at_fetch {S : Type} (apply : S -> Op -> S) (s : S) (t : list Op) : S :=
  fold_left apply (before_fetch t) s.

(** The operations that precede the request in each handler, after [h]. *)
Definition lookup_history (h : list Op) : list Op :=
  (h ++ [PreventDefault; SetLoading true; SetMessage ""; SetError "";
         SetVideoInfo VNull])%list.

Definition download_history (h : list Op) : list Op :=
  (h ++ [SetLoading true; SetMessage "Starting download..."])%list.

Definition card_history (h : list Op) : list Op :=
  (h ++ [PreventDefault; SetLoading true; SetError "";
         SetDownloadLink (VStr "")])%list.

(** The state of a card after a failed submission. *)
Definition card_failed (s : Card.State) (m : string) : Card.State :=
  {| Card.url := Card.url s; Card.loading := false; Card.error := m;
     Card.downloadLink := VStr "" |}.

End Views.
End Reading.

(* ================================================================== *)
(** ** A browser and a server to run examples in                       *)
(* ================================================================== *)

Module Sample.
Import JS Effects Reading.

(** Integer numbers, V8's wording of the [TypeError], and a URL check that
    asks for an [http:] or [https:] scheme. *)
#[export] Instance browser : Browser := {|
  number := nat;
  number_truthy := fun n => negb (n =? 0)%nat;
  number_to_string := fun n => NilZero.string_of_uint (Nat.to_uint n);
  type_error_message := fun is_null k =>
    "Cannot read properties of " ++ (if is_null then "null" else "undefined")
      ++ " (reading '" ++ k ++ "')";
  url_type_ok := fun u => prefix "http://" u || prefix "https://" u
|}.

Definition watch : string := "https://www.youtube.com/watch?v=dQw4w9WgXcQ".

Definition mp4_360 : App.VideoFormat :=
  {| App.format_id := "18"; App.ext := "mp4"; App.resolution := "640x360";
     App.filesize := Some 1000; App.note := "360p";
     App.has_video := true; App.has_audio := true |}.

Definition clip : App.VideoInfo :=
  {| App.title := "Clip"; App.thumbnail := None; App.duration := Some 212;
     App.formats := [mp4_360] |}.

(** A body that follows the interface and lists no format. *)
Definition bare : App.VideoInfo :=
  {| App.title := "Clip"; App.thumbnail := None; App.duration := Some 212;
     App.formats := [] |}.

Definition bytes : Blob := [Byte.x00; Byte.x01; Byte.x02].

(** An ok answer of [/formats]. *)
Definition formats_ok (vi : App.VideoInfo) : Response :=
  {| ok := true;
     headers_get := fun _ => None;
     json := Value (App.info_object vi);
     blob := Thrown (Error "body stream already read") |}.

(** An ok answer of [/download], a file with or without the header. *)
Definition file_ok (contentDisposition : option string) : Response :=
  {| ok := true;
     headers_get := fun k =>
       if k =? "Content-Disposition" then contentDisposition else None;
     json := Thrown (Error "Unexpected token in JSON at position 0");
     blob := Value bytes |}.

(** The header of a file named [clip.mp4]. *)
Definition clip_header : option string := Some (content_disposition "clip.mp4").


(** A status 500. *)
Definition server_error : Response :=
  {| ok := false;
     headers_get := fun _ => None;
     json := Value (VObj [("detail", VStr "Internal Server Error")]);
     blob := Value [] |}.

(** A rejected [fetch]. *)
Definition offline : Result Response := Thrown (Error "Failed to fetch").

(** A world that answers the requests, in order, from a list, and is offline
    once the list is used up. *)
Definition scripted (answers : list (Result Response)) : World :=
  {| net := fun history _ => nth (length (requests history)) answers offline;
     object_url := fun _ _ => "blob:http://localhost:5173/0" |}.

(** A page on which [clip] was looked up and its format is selected. *)
Definition ready : App.State :=
  {| App.url := watch; App.loading := false; App.message := "";
     App.error := ""; App.videoInfo := App.info_object clip;
     App.selectedFormat := VStr "18" |}.

Definition typed : App.State := App.setUrl watch App.initial.

Definition card : Card.State := Card.setUrl watch Card.initial.

End Sample.

(* ================================================================== *)
(** ** The document, the card pages, and more vocabulary               *)
(* ================================================================== *)

(** What a handler leaves behind in the document. *)
Module Document.
Import JS Effects.

Section Residue.
Context {B : Browser}.

(** The object URLs that are alive after the operations of [t], when those of
    [l] were alive before: [createObjectURL] adds one, [revokeObjectURL]
    removes the ones it names. *)
Fixpoint live_after (w : World) (history : list Op) (l : list (string * Blob))
    (t : list Op) : list (string * Blob) :=
  match t with
  | [] => l
  | o :: rest =>
      let history' := (history ++ [o])%list in
      match o with
      | CreateObjectURL b =>
          live_after w history' ((object_url w history b, b) :: l) rest
      | RevokeObjectURL u =>
          live_after w history' (filter (fun p => negb (fst p =? u)) l) rest
      | _ => live_after w history' l rest
      end
  end.

(** The number of anchors attached to [document.body] after the operations of
    [t], when [n] were attached before. *)
Fixpoint attached_after (n : nat) (t : list Op) : nat :=
  match t with
  | [] => n
  | AppendChild :: rest => attached_after (S n) rest
  | RemoveChild :: rest => attached_after (pred n) rest
  | _ :: rest => attached_after n rest
  end.

End Residue.
End Document.

(** The page of a card prototype: the input, whose [onChange] is
    [setUrl(e.target.value)], and the form, whose [onSubmit] is [submit]. *)
Module CardPage.
Import JS Effects Card.

Section Page.
Context {B : Browser}.
Variable submit : World -> list Op -> State -> list Op * State.

Inductive Event :=
| ChangeUrl (v : string)
| Submit.

Definition step (w : World) (history : list Op) (s : State) (ev : Event)
    : list Op * State :=
  match ev with
  | ChangeUrl v => ([], setUrl v s)
  | Submit => submit w history s
  end.

Fixpoint session (w : World) (history : list Op) (s : State) (evs : list Event)
    : list Op * State :=
  match evs with
  | [] => ([], s)
  | ev :: rest =>
      let '(t, s') := step w history s ev in
      let '(t', s'') := session w (history ++ t)%list s' rest in
      ((t ++ t')%list, s'')
  end.

End Page.
End CardPage.

Module Conduct.
Import JS Effects Reading.

Section Predicates.
Context {B : Browser}.



(** A request to [/formats] carries a URL that passed the form. *)
Definition lookup_url_checked (r : Request) : Prop :=
  endpoint r = "http://localhost:8000/formats" ->
  exists u, form_valid u = true /\ r = App.formats_request u.

(** A request of a card to [target] with a URL that passed the form. *)
Definition card_url_checked (target : string) (r : Request) : Prop :=
  exists u, form_valid u = true /\ r = Card.download_request target u.

(** The handler set the error once, to [m], after at most the clearing at its
    start; [m] is what the error cell holds afterwards, and the page shows
    it. *)
Definition surfaces_always (t : list Op) (cell : string) (shown : bool)
    (m : string) : Prop :=
  cell = m /\ (errors_set t = [m] \/ errors_set t = [""; m]) /\ shown = true.

(** The same, on a page that shows the error unless it is the empty string. *)
Definition surfaces_unless_empty (t : list Op) (cell : string) (shown : bool)
    (m : string) : Prop :=
  cell = m /\ (errors_set t = [m] \/ errors_set t = [""; m]) /\
  shown = negb (m =? "").

(** A card shows its error and its link at most one at a time. *)
Definition one_outcome (s : Card.State) : Prop :=
  Card.error_shown s = true -> Card.link s = None.

End Predicates.
End Conduct.

(** More answers and pages to run examples on. *)
Module Cases.
Import JS Effects Reading Sample.

(** The header of a file with a second parameter, not quoted. *)
Definition header_with_size : string :=
  content_disposition "clip.mp4" ++ "; size=12".

(** The array [match] returns on the header of [clip.mp4]. *)
Definition clip_match : RegExp.MatchResult :=
  {| RegExp.index := 12;
     RegExp.matched := "filename=" ++ String RegExp.quote ("clip.mp4" ++ String RegExp.quote "");
     RegExp.groups := [Some "clip.mp4"] |}.

(** An ok answer of [/formats] whose body has no [formats]. *)
Definition title_only : list (string * value) := [("title", VStr "Clip")].

Definition formats_missing : Response :=
  {| ok := true;
     headers_get := fun _ => None;
     json := Value (VObj title_only);
     blob := Thrown (Error "body stream already read") |}.

(** An ok answer of [/formats] whose first format is [null]. *)
Definition first_null : Response :=
  {| ok := true;
     headers_get := fun _ => None;
     json := Value (VObj [("title", VStr "Clip"); ("formats", VArr [VNull])]);
     blob := Thrown (Error "body stream already read") |}.

(** An ok answer of [/api/download] whose body has no [downloadUrl]. *)
Definition queued : list (string * value) := [("status", VStr "queued")].

Definition link_missing : Response :=
  {| ok := true;
     headers_get := fun _ => None;
     json := Value (VObj queued);
     blob := Thrown (Error "body stream already read") |}.

(** A status 500 of [/api/download] whose body has an empty array as
    [message]. *)
Definition refused_with_list : Response :=
  {| ok := false;
     headers_get := fun _ => None;
     json := Value (VObj [("message", VArr [])]);
     blob := Thrown (Error "body stream already read") |}.

(** An ok answer of [/formats] whose first format has no [format_id]. *)
Definition first_unnamed : Response :=
  {| ok := true;
     headers_get := fun _ => None;
     json := Value (VObj [("title", VStr "Clip");
                          ("formats",
                           VArr [VObj [("ext", VStr "webm")];
                                 VObj [("format_id", VStr "18");
                                       ("ext", VStr "mp4")]])]);
     blob := Thrown (Error "body stream already read") |}.


(** A visit: a click on Download before anything else, then a lookup, a
    choice and a download. *)
Definition visit : list App.Event :=
  [App.ClickDownload; App.ChangeUrl watch; App.SubmitForm;
   App.SelectFormat "18"; App.ClickDownload].

(** A visit of a card: a submission of the empty input, then of a URL. *)
Definition card_visit : list CardPage.Event :=
  [CardPage.Submit; CardPage.ChangeUrl watch; CardPage.Submit].

End Cases.

(* ================================================================== *)
(** ** The pattern of the file name                                    *)
(* ================================================================== *)

Section PatternFacts.
Import RegExp Reading.

Lemma length_append (a b : string) :
  String.length (a ++ b) = String.length a + String.length b.
Proof. induction a as [|c a IH]; simpl; [reflexivity | now rewrite IH]. Qed.

Lemma substring_prefix (a b : string) :
  substring 0 (String.length a) (a ++ b) = a.
Proof.
  induction a as [|c a IH]; simpl.
  - destruct b; reflexivity.
  - now rewrite IH.
Qed.

Lemma consumed_append (a b : string) : consumed (a ++ b) b = a.
Proof.
  unfold consumed. rewrite length_append.
  replace (String.length a + String.length b - String.length b)
    with (String.length a) by lia.
  apply substring_prefix.
Qed.

Lemma consumed_append_tail (a cap t : string) :
  consumed (a ++ (cap ++ String quote t)) t = a ++ (cap ++ String quote "").
Proof.
  replace (a ++ (cap ++ String quote t))
    with ((a ++ (cap ++ String quote "")) ++ t).
  - apply consumed_append.
  - clear. induction a as [|x a IH]; simpl; [|now rewrite IH].
    induction cap as [|y cap IH]; simpl; [reflexivity | now rewrite IH].
Qed.

Lemma append_same_length (a b a' b' : string) :
  a ++ b = a' ++ b' -> String.length a = String.length a' -> a = a' /\ b = b'.
Proof.
  revert a'; induction a as [|x a IH]; intros [|x' a'] E L; simpl in *;
    try discriminate.
  - now split.
  - injection E as -> E. injection L as L.
    destruct (IH _ E L) as [-> ->]. now split.
Qed.

Lemma append_cancel_l (a b b' : string) : a ++ b = a ++ b' -> b = b'.
Proof. intros E. now destruct (append_same_length a b a b' E eq_refl). Qed.

Section Greedy.
Context {R : Type}.

(** A failed [.+]: the continuation rejected the remainder after every
    non-empty run. *)
Lemma plus_greedy_none (s : string) (k : string -> option R) :
  plus_greedy ADot s k = None ->
  forall run rest, s = run ++ rest -> run <> "" -> all_dot run = true ->
    k rest = None.
Proof.
  induction s as [|c t IH]; simpl; intros H run rest E Hne Hd.
  - destruct run; [now elim Hne | discriminate].
  - destruct run as [|c' run]; [now elim Hne|]. simpl in *.
    injection E as <- E.
    destruct (line_terminator c) eqn:Hc; simpl in *; [discriminate|].
    destruct (plus_greedy ADot t k) eqn:Hrec; [discriminate|].
    destruct run as [|e run].
    + simpl in E. now subst.
    + apply (IH eq_refl (String e run) rest E); [easy | exact Hd].
Qed.

(** A successful [.+]: the continuation accepted the remainder after a
    non-empty run, and rejected it after every longer run. *)
Lemma plus_greedy_some (s : string) (k : string -> option R) (r : R) :
  plus_greedy ADot s k = Some r ->
  exists run rest,
    s = run ++ rest /\ run <> "" /\ all_dot run = true /\ k rest = Some r /\
    forall run' rest', s = run' ++ rest' -> all_dot run' = true ->
      String.length run < String.length run' -> k rest' = None.
Proof.
  induction s as [|c t IH]; simpl; [discriminate|].
  destruct (line_terminator c) eqn:Hc; simpl; [discriminate|].
  destruct (plus_greedy ADot t k) as [r'|] eqn:Hrec.
  - intros [= ->].
    destruct (IH eq_refl) as (run & rest & -> & Hne & Hdot & Hk & Hmax).
    exists (String c run), rest. simpl. rewrite Hc, Hdot.
    repeat split; try easy.
    intros [|c' run'] rest' E Hd L; simpl in *; [lia|].
    injection E as <- E. rewrite Hc in Hd. simpl in Hd.
    apply (Hmax run' rest' E Hd). lia.
  - intros Hk. exists (String c ""), t. simpl. rewrite Hc.
    repeat split; try easy.
    intros [|c' run'] rest' E Hd L; simpl in *; [lia|].
    injection E as <- E. rewrite Hc in Hd. simpl in Hd.
    destruct run' as [|e run']; simpl in L; [lia|].
    now apply (plus_greedy_none t k Hrec (String e run') rest' E).
Qed.

End Greedy.

(** A literal prefix of a pattern is stripped from the input, or the match
    fails there. *)
Lemma matcher_chars_append {R : Type} (p : string) (r : regex) (rest : string)
    (caps : captures) (k : string -> captures -> option R) :
  matcher (chars p r) (p ++ rest) caps k = matcher r rest caps k.
Proof.
  induction p as [|c p IH]; simpl; [reflexivity|].
  now rewrite Ascii.eqb_refl.
Qed.

Lemma matcher_chars_some {R : Type} (p : string) (r : regex) (s : string)
    (caps : captures) (k : string -> captures -> option R) (x : R) :
  matcher (chars p r) s caps k = Some x ->
  exists rest, s = p ++ rest /\ matcher r rest caps k = Some x.
Proof.
  revert s; induction p as [|c p IH]; intros s; simpl.
  - intros H. now exists s.
  - destruct s as [|d s]; [discriminate|].
    destruct (Ascii.eqb_spec c d) as [<-|]; [|discriminate].
    intros H. destruct (IH _ H) as (rest & -> & H'). now exists rest.
Qed.

Lemma matcher_quoted (s : string) :
  matcher quoted s [] (fun t caps => Some (t, caps)) =
  match s with
  | String c body =>
      if (quote =? c)%char then plus_greedy ADot body (closing body) else None
  | EmptyString => None
  end.
Proof.
  destruct s as [|c body]; [reflexivity|]. simpl.
  destruct (quote =? c)%char; reflexivity.
Qed.

Lemma match_here_unfold (rest : string) :
  match_here filename_pattern ("filename=" ++ rest) =
  matcher quoted rest [] (fun t caps => Some (t, caps)).
Proof. apply (matcher_chars_append "filename=" quoted). Qed.

(** A match at the start of [s]: the input reads [filename="cap"] with a
    non-empty capture free of line terminators, and no longer capture would
    do. *)
Lemma match_here_some (s t : string) (caps : captures) :
  match_here filename_pattern s = Some (t, caps) ->
  exists cap,
    s = "filename=" ++ String quote (cap ++ String quote t) /\
    cap <> "" /\ all_dot cap = true /\ caps = [Some cap] /\
    forall cap' t', s = "filename=" ++ String quote (cap' ++ String quote t') ->
      all_dot cap' = true -> String.length cap' <= String.length cap.
Proof.
  intros H.
  destruct (matcher_chars_some "filename=" quoted s [] _ _ H) as (rest & -> & H').
  rewrite matcher_quoted in H'.
  destruct rest as [|c body]; [discriminate|].
  destruct (Ascii.eqb_spec quote c) as [<-|]; [|discriminate].
  destruct (plus_greedy_some _ _ _ H') as (run & tl & -> & Hne & Hdot & Hk & Hmax).
  destruct tl as [|d tl]; [discriminate|]. unfold closing in Hk.
  destruct (Ascii.eqb_spec quote d) as [<-|]; [|discriminate].
  injection Hk as <- <-. rewrite consumed_append.
  exists run. repeat split; try easy.
  intros cap' t' E Hd.
  apply append_cancel_l in E. injection E as E.
  destruct (Nat.le_gt_cases (String.length cap') (String.length run)) as [|L];
    [assumption|].
  specialize (Hmax cap' (String quote t') E Hd L).
  unfold closing in Hmax. now rewrite Ascii.eqb_refl in Hmax.
Qed.

(** No match at the start of [s]: the input does not read [filename="cap"]
    for any such capture. *)
Lemma match_here_none (s : string) :
  match_here filename_pattern s = None ->
  forall cap t, s = "filename=" ++ String quote (cap ++ String quote t) ->
    cap <> "" -> all_dot cap = true -> False.
Proof.
  intros H cap t -> Hne Hd.
  rewrite match_here_unfold, matcher_quoted, Ascii.eqb_refl in H.
  pose proof (plus_greedy_none _ _ H cap (String quote t) eq_refl Hne Hd) as K.
  unfold closing in K. now rewrite Ascii.eqb_refl in K.
Qed.

(** [exec] finds the first occurrence from the left and, there, the longest
    capture. *)
Lemma exec_from_some (s : string) : forall (i : nat) (m : MatchResult),
  exec_from filename_pattern i s = Some m ->
  exists pre cap post,
    occurrence s pre cap post /\
    index m = i + String.length pre /\
    matched m = "filename=" ++ String quote (cap ++ String quote "") /\
    groups m = [Some cap] /\
    forall pre' cap' post', occurrence s pre' cap' post' ->
      String.length pre <= String.length pre' /\
      (String.length pre' = String.length pre ->
       String.length cap' <= String.length cap).
Proof.
  induction s as [|c s IH]; intros i m; simpl.
  - destruct (match_here filename_pattern "") as [[t caps]|] eqn:H; [|discriminate].
    apply match_here_some in H. destruct H as (cap & E & _). discriminate.
  - destruct (match_here filename_pattern (String c s)) as [[t caps]|] eqn:H.
    + intros [= <-]. simpl.
      destruct (match_here_some _ _ _ H) as (cap & E & Hne & Hd & -> & Hmax).
      exists "", cap, t. repeat split; try easy; simpl; try lia.
      * rewrite E.
        change ("filename=" ++ String quote (cap ++ String quote t))
          with (("filename=" ++ String quote "") ++ (cap ++ String quote t)).
        rewrite consumed_append_tail. reflexivity.
      * intros L. destruct pre' as [|? ?]; [|discriminate].
        destruct H0 as (E' & Hne' & Hd'). simpl in E'.
        apply (Hmax cap' post' E' Hd').
    + intros Hrec. destruct (IH _ _ Hrec) as (pre & cap & post & Hocc & Hi & Hm & Hg & Hmin).
      destruct Hocc as (E & Hne & Hd).
      exists (String c pre), cap, post. simpl.
      repeat split; try easy; try lia.
      * now rewrite E.
      * destruct pre' as [|c' pre'].
        -- destruct H0 as (E' & Hne' & Hd'). simpl in E'.
           elim (match_here_none _ H cap' post' E' Hne' Hd').
        -- destruct H0 as (E' & Hne' & Hd'). simpl in E'. injection E' as _ E'.
           simpl. apply le_n_S. apply (Hmin pre' cap' post'). now repeat split.
      * destruct pre' as [|c' pre']; simpl; [discriminate|].
        intros [= L]. destruct H0 as (E' & Hne' & Hd'). simpl in E'.
        injection E' as _ E'.
        apply (Hmin pre' cap' post'); [now repeat split | exact L].
Qed.

Lemma exec_from_none (s : string) : forall (i : nat),
  exec_from filename_pattern i s = None ->
  forall pre cap post, ~ occurrence s pre cap post.
Proof.
  induction s as [|c s IH]; intros i; simpl.
  - intros _ pre cap post (E & _). destruct pre; discriminate.
  - destruct (match_here filename_pattern (String c s)) as [[t caps]|] eqn:H;
      [discriminate|].
    intros Hrec [|c' pre] cap post (E & Hne & Hd); simpl in E.
    + exact (match_here_none _ H cap post E Hne Hd).
    + injection E as _ E. apply (IH _ Hrec pre cap post). now repeat split.
Qed.

End PatternFacts.

(* ================================================================== *)
(** ** What each handler does                                          *)
(* ================================================================== *)

Section Traces.
Import JS Effects RegExp Reading.
Context {B : Browser}.

Lemma trace_vis {A : Type} (w : World) (h : list Op) (o : Op) (k : Ans o -> Prog A) :
  trace w h (Vis o k) = o :: trace w (h ++ [o])%list (k (respond w h o)).
Proof.
  unfold trace. simpl.
  now destruct (run w (h ++ [o])%list (k (respond w h o))).
Qed.

(** The operations of [App.handleUrlSubmit], by the answer to its request. *)
Lemma trace_handleUrlSubmit (w : World) (h : list Op) (s : App.State) :
  let h' := (h ++ [PreventDefault; SetLoading true; SetMessage ""; SetError "";
                   SetVideoInfo VNull])%list in
  trace w h (App.handleUrlSubmit s) =
  ([PreventDefault; SetLoading true; SetMessage ""; SetError "";
    SetVideoInfo VNull; Fetch (App.formats_request (App.url s))] ++
  match net w h' (App.formats_request (App.url s)) with
  | Thrown e =>
      [SetError (or_else_string (exn_message e) "Something went wrong");
       SetLoading false]
  | Value response =>
      if ok response then
        match json response with
        | Thrown e =>
            [SetError (or_else_string (exn_message e) "Something went wrong");
             SetLoading false]
        | Value data =>
            SetVideoInfo data ::
            match App.first_format_id data with
            | Thrown e =>
                [SetError (or_else_string (exn_message e) "Something went wrong");
                 SetLoading false]
            | Value selected => [SetSelectedFormat selected; SetLoading false]
            end
        end
      else [SetError "Failed to get video information"; SetLoading false]
  end)%list.
Proof.
  intros h'. unfold App.handleUrlSubmit, try_catch_finally, call, fetch.
  cbn [bind try_catch finally].
  repeat (rewrite trace_vis; cbn [respond]).
  repeat rewrite <- app_assoc. cbn [app]. fold h'.
  destruct (net w h' _) as [response|e]; cbn [lift bind try_catch finally].
  - unfold throw_if. destruct (ok response); cbn [negb bind try_catch finally].
    + destruct (json response) as [data|e]; cbn [lift bind try_catch finally].
      * rewrite trace_vis.
        destruct (App.first_format_id data) as [selected|e];
          cbn [lift bind try_catch finally]; now repeat rewrite trace_vis.
      * now repeat rewrite trace_vis.
    + now repeat rewrite trace_vis.
  - now repeat rewrite trace_vis.
Qed.

(** The operations of [App.handleDownload], by the answer to its request. *)
Lemma trace_handleDownload (w : World) (h : list Op) (s : App.State) :
  let request := App.download_request (App.url s) (App.selectedFormat s) in
  let h' := (h ++ [SetLoading true; SetMessage "Starting download..."])%list in
  trace w h (App.handleDownload s) =
  ([SetLoading true; SetMessage "Starting download..."; Fetch request] ++
  match net w h' request with
  | Thrown e =>
      [SetError (or_else_string (exn_message e) "Download failed");
       SetLoading false]
  | Value response =>
      if ok response then
        match blob response with
        | Thrown e =>
            [SetError (or_else_string (exn_message e) "Download failed");
             SetLoading false]
        | Value bytes =>
            let name :=
              to_string (App.filename (headers_get response "Content-Disposition")) in
            let downloadUrl :=
              object_url w
                (h ++ [SetLoading true; SetMessage "Starting download...";
                       Fetch request]) bytes in
            [CreateObjectURL bytes; CreateElement "a"; SetHref downloadUrl;
             SetDownloadAttribute name; AppendChild; Click;
             RevokeObjectURL downloadUrl; RemoveChild;
             SetMessage ("Download complete: " ++ name)%string;
             SetLoading false]
        end
      else [SetError "Download failed"; SetLoading false]
  end)%list.
Proof.
  intros request h'. unfold App.handleDownload, try_catch_finally, call, fetch.
  cbn [bind try_catch finally].
  repeat (rewrite trace_vis; cbn [respond]).
  repeat rewrite <- app_assoc. cbn [app]. fold request h'.
  destruct (net w h' request) as [response|e]; cbn [lift bind try_catch finally].
  - unfold throw_if. destruct (ok response); cbn [negb bind try_catch finally].
    + destruct (blob response) as [bytes|e];
        cbn [lift bind try_catch finally createObjectURL].
      * repeat (rewrite trace_vis; cbn [respond bind try_catch finally]).
        unfold h'. repeat rewrite <- app_assoc. reflexivity.
      * now repeat rewrite trace_vis.
    + now repeat rewrite trace_vis.
  - now repeat rewrite trace_vis.
Qed.

(** The operations of the first prototype's [handleSubmit]: the body is parsed
    before the status is looked at. *)
Lemma trace_handleSubmit_relative (w : World) (h : list Op) (s : Card.State) :
  let request := Card.download_request "/api/download" (Card.url s) in
  let h' := (h ++ [PreventDefault; SetLoading true; SetError "";
                   SetDownloadLink (VStr "")])%list in
  trace w h (YouTubeDownloader.handleSubmit s) =
  ([PreventDefault; SetLoading true; SetError ""; SetDownloadLink (VStr "");
    Fetch request] ++
  match net w h' request with
  | Thrown e => [SetError (exn_message e); SetLoading false]
  | Value response =>
      match json response with
      | Thrown e => [SetError (exn_message e); SetLoading false]
      | Value data =>
          if ok response then
            match get data "downloadUrl" with
            | Thrown e => [SetError (exn_message e); SetLoading false]
            | Value downloadUrl => [SetDownloadLink downloadUrl; SetLoading false]
            end
          else
            match get data "message" with
            | Thrown e => [SetError (exn_message e); SetLoading false]
            | Value m =>
                [SetError (to_string (or_else m (VStr "Failed to download video")));
                 SetLoading false]
            end
      end
  end)%list.
Proof.
  intros request h'.
  unfold YouTubeDownloader.handleSubmit, try_catch_finally, call, fetch.
  cbn [bind try_catch finally].
  repeat (rewrite trace_vis; cbn [respond]).
  repeat rewrite <- app_assoc. cbn [app]. fold request h'.
  destruct (net w h' request) as [response|e]; cbn [lift bind try_catch finally].
  - destruct (json response) as [data|e]; cbn [lift bind try_catch finally].
    + destruct (ok response); cbn [negb bind try_catch finally].
      * destruct (get data "downloadUrl") as [downloadUrl|e];
          cbn [lift bind try_catch finally]; now repeat rewrite trace_vis.
      * destruct (get data "message") as [m|e];
          cbn [lift bind try_catch finally exn_message];
          now repeat rewrite trace_vis.
    + now repeat rewrite trace_vis.
  - now repeat rewrite trace_vis.
Qed.

(** The operations of the second prototype's [handleSubmit]. *)
Lemma trace_handleSubmit_absolute (w : World) (h : list Op) (s : Card.State) :
  let request :=
    Card.download_request "http://localhost:8000/api/download" (Card.url s) in
  let h' := (h ++ [PreventDefault; SetLoading true; SetError "";
                   SetDownloadLink (VStr "")])%list in
  trace w h (YouTubeDownLoader.handleSubmit s) =
  ([PreventDefault; SetLoading true; SetError ""; SetDownloadLink (VStr "");
    Fetch request] ++
  match net w h' request with
  | Thrown e => [SetError (exn_message e); SetLoading false]
  | Value response =>
      if ok response then
        match json response with
        | Thrown e => [SetError (exn_message e); SetLoading false]
        | Value data =>
            match get data "downloadUrl" with
            | Thrown e => [SetError (exn_message e); SetLoading false]
            | Value downloadUrl => [SetDownloadLink downloadUrl; SetLoading false]
            end
        end
      else [SetError "Failed to download video"; SetLoading false]
  end)%list.
Proof.
  intros request h'.
  unfold YouTubeDownLoader.handleSubmit, try_catch_finally, call, fetch.
  cbn [bind try_catch finally].
  repeat (rewrite trace_vis; cbn [respond]).
  repeat rewrite <- app_assoc. cbn [app]. fold request h'.
  destruct (net w h' request) as [response|e]; cbn [lift bind try_catch finally].
  - unfold throw_if. destruct (ok response); cbn [negb bind try_catch finally].
    + destruct (json response) as [data|e]; cbn [lift bind try_catch finally].
      * destruct (get data "downloadUrl") as [downloadUrl|e];
          cbn [lift bind try_catch finally]; now repeat rewrite trace_vis.
      * now repeat rewrite trace_vis.
    + now repeat rewrite trace_vis.
  - now repeat rewrite trace_vis.
Qed.

End Traces.

(* ================================================================== *)
(** ** Responses that follow the [VideoInfo] interface                 *)
(* ================================================================== *)

Section Typed.
Import JS Effects RegExp Reading.
Context {B : Browser}.

Lemma get_formats (vi : App.VideoInfo) :
  get (App.info_object vi) "formats" =
  Value (VArr (map App.format_object (App.formats vi))).
Proof.
  unfold App.info_object, get.
  destruct (App.thumbnail vi), (App.duration vi); reflexivity.
Qed.

Lemma get_format_id (f : App.VideoFormat) :
  get (App.format_object f) "format_id" = Value (VStr (App.format_id f)).
Proof. reflexivity. Qed.

Lemma or_else_string_value (id : string) :
  or_else (VStr id) (VStr "") = VStr id.
Proof.
  unfold or_else, truthy.
  destruct (String.eqb_spec id "") as [->|]; reflexivity.
Qed.

(** Line 51 on a typed response: the identifier of the first format, or the
    empty string when there is none. *)
Lemma first_format_id_typed (vi : App.VideoInfo) :
  App.first_format_id (App.info_object vi) =
  Value (VStr match App.formats vi with
              | [] => ""
              | f :: _ => App.format_id f
              end).
Proof.
  unfold App.first_format_id. rewrite get_formats. cbn [and_then get_index].
  destruct (App.formats vi) as [|f rest]; [reflexivity|].
  cbn [map nth]. unfold App.format_object at 1. cbn [get_optional].
  fold (App.format_object f). rewrite get_format_id. cbn [and_then].
  now rewrite or_else_string_value.
Qed.

Lemma traverse_format_ids (fs : list App.VideoFormat) :
  App.traverse (fun format => match get format "format_id" with
                              | Value v => Some v
                              | Thrown _ => None
                              end) (map App.format_object fs) =
  Some (map (fun f => VStr (App.format_id f)) fs).
Proof.
  induction fs as [|f fs IH]; [reflexivity|].
  cbn [map App.traverse]. rewrite get_format_id, IH. reflexivity.
Qed.

(** The options of the select are the identifiers of the formats held. *)
Lemma options_typed (s : App.State) (vi : App.VideoInfo) :
  App.videoInfo s = App.info_object vi ->
  App.options s = Some (map (fun f => VStr (App.format_id f)) (App.formats vi)).
Proof.
  intros E. unfold App.options. rewrite E, get_formats.
  apply traverse_format_ids.
Qed.

Lemma label_typed (f : App.VideoFormat) :
  forallb App.renderable (App.label (App.format_object f)) = true.
Proof.
  unfold App.label, App.member, App.format_object.
  destruct (App.filesize f); reflexivity.
Qed.

Lemma option_value_typed (f : App.VideoFormat) :
  App.option_value (App.format_object f) = App.format_id f.
Proof. reflexivity. Qed.

Lemma formats_items_typed (s : App.State) (vi : App.VideoInfo) :
  App.videoInfo s = App.info_object vi ->
  App.formats_items s = Some (map App.format_object (App.formats vi)).
Proof. intros E. unfold App.formats_items. now rewrite E, get_formats. Qed.

Lemma section_renders_typed (s : App.State) (vi : App.VideoInfo) :
  App.videoInfo s = App.info_object vi -> App.section_renders s = true.
Proof.
  intros E. unfold App.section_renders.
  rewrite (options_typed s vi E), (formats_items_typed s vi E), E.
  assert (Ht : App.renderable (App.member (App.info_object vi) "title") = true)
    by reflexivity.
  rewrite Ht. cbn [andb].
  induction (App.formats vi) as [|f fs IH]; [reflexivity|].
  cbn [map forallb]. now rewrite label_typed, IH.
Qed.

Lemma download_section_typed (s : App.State) (vi : App.VideoInfo) :
  App.videoInfo s = App.info_object vi -> App.download_section s = true.
Proof.
  intros E. unfold App.download_section.
  rewrite (section_renders_typed s vi E), E. reflexivity.
Qed.

Lemma renders_typed (s : App.State) (vi : App.VideoInfo) :
  App.videoInfo s = App.info_object vi -> App.renders s = true.
Proof.
  intros E. unfold App.renders. rewrite (section_renders_typed s vi E).
  apply orb_true_r.
Qed.

(** A page without stored body renders: the form, and the alerts. *)
Lemma renders_null (s : App.State) :
  App.videoInfo s = VNull -> App.renders s = true.
Proof. intros E. unfold App.renders. now rewrite E. Qed.

(** The download section is part of the page. *)
Lemma download_section_renders (s : App.State) :
  App.download_section s = true -> App.renders s = true.
Proof.
  unfold App.download_section, App.renders. intros H.
  apply andb_true_iff in H. destruct H as [_ ->]. apply orb_true_r.
Qed.

End Typed.

(* ================================================================== *)
(** ** Format lookup                                                   *)
(* ================================================================== *)

Section Lookup.
Import JS Effects RegExp Reading.
Context {B : Browser}.

(** One request per lookup, whatever the answer. *)
Lemma requests_handleUrlSubmit (w : World) (h : list Op) (s : App.State) :
  requests (trace w h (App.handleUrlSubmit s)) = [App.formats_request (App.url s)].
Proof.
  rewrite trace_handleUrlSubmit. cbn [app requests]. f_equal.
  destruct (net w _ _) as [response|e]; [|reflexivity].
  destruct (ok response); [|reflexivity].
  destruct (json response) as [data|e]; [|reflexivity].
  cbn [requests]. now destruct (App.first_format_id data).
Qed.

(** The answer the handler works with is the one to that request. *)
Lemma responses_handleUrlSubmit (w : World) (h : list Op) (s : App.State) :
  responses w h (trace w h (App.handleUrlSubmit s)) =
  [net w (lookup_history h) (App.formats_request (App.url s))].
Proof.
  rewrite trace_handleUrlSubmit. cbn [app responses].
  repeat rewrite <- app_assoc. cbn [app]. unfold lookup_history. f_equal.
  destruct (net w _ _) as [response|e]; [|reflexivity].
  destruct (ok response); [|reflexivity].
  destruct (json response) as [data|e]; [|reflexivity].
  cbn [responses]. now destruct (App.first_format_id data).
Qed.

(** The state after a lookup that was answered by a readable body. *)
Lemma final_handleUrlSubmit_ok (w : World) (h : list Op) (s : App.State)
    (response : Response) (data : value) :
  net w (lookup_history h) (App.formats_request (App.url s)) = Value response ->
  ok response = true -> json response = Value data ->
  App.final s (trace w h (App.handleUrlSubmit s)) =
  match App.first_format_id data with
  | Value selected =>
      {| App.url := App.url s; App.loading := false; App.message := "";
         App.error := ""; App.videoInfo := data;
         App.selectedFormat := selected |}
  | Thrown e =>
      {| App.url := App.url s; App.loading := false; App.message := "";
         App.error := or_else_string (exn_message e) "Something went wrong";
         App.videoInfo := data;
         App.selectedFormat := App.selectedFormat s |}
  end.
Proof.
  intros Hnet Hok Hjson. rewrite trace_handleUrlSubmit.
  fold (lookup_history h). rewrite Hnet, Hok, Hjson.
  now destruct (App.first_format_id data).
Qed.

(** The state after a lookup that failed: the fetch was rejected, the status
    was not ok, or the body could not be read. *)
Lemma final_handleUrlSubmit_failed (w : World) (h : list Op) (s : App.State) :
  let answer := net w (lookup_history h) (App.formats_request (App.url s)) in
  forall m : string,
    match answer with
    | Thrown e => m = or_else_string (exn_message e) "Something went wrong"
    | Value response =>
        if ok response then
          match json response with
          | Thrown e => m = or_else_string (exn_message e) "Something went wrong"
          | Value _ => False
          end
        else m = "Failed to get video information"
    end ->
    App.final s (trace w h (App.handleUrlSubmit s)) =
    {| App.url := App.url s; App.loading := false; App.message := "";
       App.error := m; App.videoInfo := VNull;
       App.selectedFormat := App.selectedFormat s |}
    /\ errors_set (trace w h (App.handleUrlSubmit s)) = [""; m].
Proof.
  intros answer m. subst answer. rewrite trace_handleUrlSubmit.
  fold (lookup_history h).
  destruct (net w _ _) as [response|e].
  - destruct (ok response).
    + destruct (json response) as [data|e]; [easy|]. now intros ->.
    + now intros ->.
  - now intros ->.
Qed.

(** C4.  A lookup sends one request, [POST] to [/formats], whose body is the
    JSON text of [{url}] with the URL of the input; when the answer is ok and
    its body is read as [data], [data] itself becomes the [videoInfo] the page
    shows, and for a body that follows the [VideoInfo] interface the select
    lists exactly the formats of that body. *)
Theorem lookup_request_and_stored_info (w : World) (h : list Op) (s : App.State) :
  let t := trace w h (App.handleUrlSubmit s) in
  requests t =
    [{| endpoint := "http://localhost:8000/formats";
        method := "POST";
        headers := [("Content-Type", "application/json")];
        body := JSON_stringify (VObj [("url", VStr (App.url s))]) |}]
  /\ (forall response data,
        responses w h t = [Value response] -> ok response = true ->
        json response = Value data ->
        App.videoInfo (App.final s t) = data)
  /\ (forall response vi,
        responses w h t = [Value response] -> ok response = true ->
        json response = Value (App.info_object vi) ->
        App.videoInfo (App.final s t) = App.info_object vi /\
        App.options (App.final s t) =
          Some (map (fun f => VStr (App.format_id f)) (App.formats vi))).
Proof.
  intros t. subst t. split; [apply requests_handleUrlSubmit|].
  assert (Hdata : forall response data,
    responses w h (trace w h (App.handleUrlSubmit s)) = [Value response] ->
    ok response = true -> json response = Value data ->
    App.videoInfo (App.final s (trace w h (App.handleUrlSubmit s))) = data).
  { intros response data Hr Hok Hjson.
    rewrite responses_handleUrlSubmit in Hr. injection Hr as Hnet.
    rewrite (final_handleUrlSubmit_ok w h s response data Hnet Hok Hjson).
    now destruct (App.first_format_id data). }
  split; [exact Hdata|].
  intros response vi Hr Hok Hjson.
  pose proof (Hdata response _ Hr Hok Hjson) as E.
  split; [exact E|]. now apply options_typed.
Qed.

(** [v?.k] never throws. *)
Lemma get_optional_total (v : value) (k : string) :
  exists x, get_optional v k = Value x.
Proof. destruct v; cbn; eauto. Qed.

(** C9, as amended.  After a lookup answered by an ok response whose body is
    read and has an array as [formats], the selected format is set from the
    first element of that array: it is the empty string when the array is
    empty, the [format_id] of the first element when that is truthy (so
    whenever it is a string, the empty one included), and the empty string
    when the first element is [null] or has no truthy [format_id].  It is
    thus always the empty string or the [format_id] of the first element.  For
    a body that follows the [VideoInfo] interface it is the identifier of the
    first format, the empty string when there is none, and one of the
    identifiers of the body whenever the list is not empty. *)
Theorem selected_format_initialised (w : World) (h : list Op) (s : App.State)
    (response : Response) (data : value) (items : list value) :
  let t := trace w h (App.handleUrlSubmit s) in
  let selected := App.selectedFormat (App.final s t) in
  responses w h t = [Value response] -> ok response = true ->
  json response = Value data ->
  get data "formats" = Value (VArr items) ->
  (items = [] -> selected = VStr "")
  /\ (forall first rest id,
        items = first :: rest -> get_optional first "format_id" = Value id ->
        selected = (if truthy id then id else VStr ""))
  /\ (forall first rest id,
        items = first :: rest -> get first "format_id" = Value (VStr id) ->
        selected = VStr id)
  /\ (selected = VStr "" \/
      exists first rest,
        items = first :: rest /\ get_optional first "format_id" = Value selected)
  /\ (forall vi, data = App.info_object vi ->
        selected = VStr match App.formats vi with
                        | [] => ""
                        | f :: _ => App.format_id f
                        end
        /\ (App.formats vi <> [] ->
            exists id, selected = VStr id /\
                       In id (map App.format_id (App.formats vi)))).
Proof.
  intros t selected Hr Hok Hjson Hformats. subst selected t.
  rewrite responses_handleUrlSubmit in Hr. injection Hr as Hnet.
  rewrite (final_handleUrlSubmit_ok w h s response _ Hnet Hok Hjson).
  assert (Hfirst : App.first_format_id data =
    match items with
    | [] => Value (VStr "")
    | first :: _ =>
        and_then (get_optional first "format_id")
                 (fun id => Value (or_else id (VStr "")))
    end).
  { unfold App.first_format_id. rewrite Hformats. cbn [and_then get_index].
    now destruct items. }
  split; [|split; [|split; [|split]]].
  - intros ->. now rewrite Hfirst.
  - intros first rest id -> Hid. now rewrite Hfirst, Hid.
  - intros first rest id -> Hid. rewrite Hfirst.
    assert (Hopt : get_optional first "format_id" = Value (VStr id))
      by (destruct first; try discriminate Hid; exact Hid).
    rewrite Hopt. cbn [and_then App.selectedFormat].
    apply or_else_string_value.
  - rewrite Hfirst. destruct items as [|first rest]; [now left|].
    destruct (get_optional_total first "format_id") as (id & Hid).
    rewrite Hid. cbn [and_then App.selectedFormat]. unfold or_else.
    destruct (truthy id); [right | now left].
    now exists first, rest.
  - intros vi ->. rewrite first_format_id_typed. cbn [App.selectedFormat].
    split; [reflexivity|].
    intros Hne. destruct (App.formats vi) as [|f rest]; [now elim Hne|].
    exists (App.format_id f). split; [reflexivity | now left].
Qed.

End Lookup.

(* ================================================================== *)
(** ** Download                                                        *)
(* ================================================================== *)

Section Download.
Import JS Effects RegExp Reading.
Context {B : Browser}.

Lemma occurrence_not_empty (pre cap post : string) : ~ occurrence "" pre cap post.
Proof. intros (E & _). destruct pre; discriminate. Qed.

(** Lines 80-82: the name is the fallback without a header or without an
    occurrence of the pattern in it, and the first capture otherwise. *)
Lemma filename_spec (contentDisposition : option string) :
  exists name,
    App.filename contentDisposition = VStr name /\
    match contentDisposition with
    | None => name = "video.mp4"
    | Some header =>
        ((forall pre cap post, ~ occurrence header pre cap post) ->
         name = "video.mp4") /\
        ((exists pre cap post, occurrence header pre cap post) ->
         first_capture header name)
    end.
Proof.
  unfold App.filename, App.filenameMatch.
  destruct contentDisposition as [header|]; [|now exists "video.mp4"].
  destruct (String.eqb_spec header "") as [->|Hne].
  - exists "video.mp4". split; [reflexivity|]. split; [reflexivity|].
    intros (pre & cap & post & H). elim (occurrence_not_empty _ _ _ H).
  - unfold string_match.
    destruct (exec_from filename_pattern 0 header) as [m|] eqn:Hexec.
    + destruct (exec_from_some _ _ _ Hexec)
        as (pre & cap & post & Hocc & _ & _ & Hg & Hmin).
      exists cap. unfold App.element. rewrite Hg. cbn [nth].
      split; [reflexivity|]. split.
      * intros Hno. elim (Hno _ _ _ Hocc).
      * intros _. now exists pre, post.
    + exists "video.mp4". split; [reflexivity|]. split; [reflexivity|].
      intros (pre & cap & post & H). elim (exec_from_none _ _ Hexec _ _ _ H).
Qed.




(** One request per download, whatever the answer. *)
Lemma requests_handleDownload (w : World) (h : list Op) (s : App.State) :
  requests (trace w h (App.handleDownload s)) =
  [App.download_request (App.url s) (App.selectedFormat s)].
Proof.
  rewrite trace_handleDownload. cbn [app requests]. f_equal.
  destruct (net w _ _) as [response|e]; [|reflexivity].
  destruct (ok response); [|reflexivity].
  now destruct (blob response).
Qed.

Lemma responses_handleDownload (w : World) (h : list Op) (s : App.State) :
  responses w h (trace w h (App.handleDownload s)) =
  [net w (download_history h)
       (App.download_request (App.url s) (App.selectedFormat s))].
Proof.
  rewrite trace_handleDownload. cbn [app responses].
  repeat rewrite <- app_assoc. cbn [app]. unfold download_history. f_equal.
  destruct (net w _ _) as [response|e]; [|reflexivity].
  destruct (ok response); [|reflexivity].
  now destruct (blob response).
Qed.

(** A download answered by an ok response with a readable body saves that
    body once, under the name computed from the header. *)
Lemma saved_handleDownload (w : World) (h : list Op) (s : App.State)
    (response : Response) (bytes : Blob) (d : Dom) :
  net w (download_history h)
      (App.download_request (App.url s) (App.selectedFormat s)) = Value response ->
  ok response = true -> blob response = Value bytes ->
  saved w h d (trace w h (App.handleDownload s)) =
  [(to_string (App.filename (headers_get response "Content-Disposition")), bytes)].
Proof.
  intros Hnet Hok Hblob. rewrite trace_handleDownload.
  fold (download_history h). rewrite Hnet, Hok, Hblob.
  cbn [app saved href download live].
  repeat rewrite <- app_assoc. cbn [app resolve].
  now rewrite String.eqb_refl.
Qed.

(** The state after such a download. *)
Lemma final_handleDownload_ok (w : World) (h : list Op) (s : App.State)
    (response : Response) (bytes : Blob) :
  net w (download_history h)
      (App.download_request (App.url s) (App.selectedFormat s)) = Value response ->
  ok response = true -> blob response = Value bytes ->
  App.final s (trace w h (App.handleDownload s)) =
  {| App.url := App.url s; App.loading := false;
     App.message :=
       "Download complete: " ++
       to_string (App.filename (headers_get response "Content-Disposition"));
     App.error := App.error s; App.videoInfo := App.videoInfo s;
     App.selectedFormat := App.selectedFormat s |}.
Proof.
  intros Hnet Hok Hblob. rewrite trace_handleDownload.
  fold (download_history h). now rewrite Hnet, Hok, Hblob.
Qed.

(** C8.  When a download is answered by an ok response whose body can be read,
    the body is saved under one name: ["video.mp4"] when the response has no
    [Content-Disposition] header or the header has no occurrence of
    [filename="..."], and otherwise the first capture group of that pattern on
    the header. *)
Theorem saved_filename_fallback_or_capture (w : World) (h : list Op)
    (s : App.State) (response : Response) (bytes : Blob) :
  let t := trace w h (App.handleDownload s) in
  responses w h t = [Value response] -> ok response = true ->
  blob response = Value bytes ->
  exists name,
    saved w h dom0 t = [(name, bytes)] /\
    match headers_get response "Content-Disposition" with
    | None => name = "video.mp4"
    | Some header =>
        ((forall pre cap post, ~ occurrence header pre cap post) ->
         name = "video.mp4") /\
        ((exists pre cap post, occurrence header pre cap post) ->
         first_capture header name)
    end.
Proof.
  intros t Hr Hok Hblob. subst t.
  rewrite responses_handleDownload in Hr. injection Hr as Hnet.
  rewrite (saved_handleDownload w h s response bytes dom0 Hnet Hok Hblob).
  destruct (filename_spec (headers_get response "Content-Disposition"))
    as (name & E & Hname).
  exists name. rewrite E. now split.
Qed.

End Download.

(* ================================================================== *)
(** ** The page of [App]                                               *)
(* ================================================================== *)

Section Page.
Import JS Effects RegExp Reading.
Context {B : Browser}.

Lemma step_ClickDownload (w : World) (h : list Op) (s : App.State) :
  App.download_section s = true -> App.loading s = false ->
  App.step w h s App.ClickDownload =
  (trace w h (App.handleDownload s),
   App.final s (trace w h (App.handleDownload s))).
Proof.
  intros Hd Hl. unfold App.step, App.enabled. now rewrite Hd, Hl.
Qed.

Lemma step_SubmitForm (w : World) (h : list Op) (s : App.State) :
  App.renders s = true ->
  App.loading s = false -> form_valid (App.url s) = true ->
  App.step w h s App.SubmitForm =
  (trace w h (App.handleUrlSubmit s),
   App.final s (trace w h (App.handleUrlSubmit s))).
Proof.
  intros Hr Hl Hv. unfold App.step, App.enabled. now rewrite Hr, Hl, Hv.
Qed.

(** The form keeps an empty or ill-formed URL away from [handleUrlSubmit]. *)
Lemma step_SubmitForm_rejected (w : World) (h : list Op) (s : App.State) :
  App.url s = "" \/ url_type_ok (App.url s) = false ->
  App.step w h s App.SubmitForm = ([], s).
Proof.
  intros H. unfold App.step, App.enabled, form_valid.
  destruct H as [-> | ->]; cbn [String.eqb negb andb];
    now rewrite ?andb_false_r.
Qed.

(** The submit button of a card does the same for its [handleSubmit]. *)
Lemma card_submit_rejected (w : World) (h : list Op) (s : Card.State) :
  Card.url s = "" \/ url_type_ok (Card.url s) = false ->
  YouTubeDownloader.submit w h s = ([], s) /\
  YouTubeDownLoader.submit w h s = ([], s).
Proof.
  intros H. unfold YouTubeDownloader.submit, YouTubeDownLoader.submit.
  assert (E : Card.submit_enabled s = false).
  { unfold Card.submit_enabled, form_valid.
    destruct H as [-> | ->]; cbn; now rewrite ?andb_false_r. }
  now rewrite E.
Qed.

Lemma existsb_option (id : string) (fs : list App.VideoFormat) :
  In id (map App.format_id fs) ->
  existsb (fun format => App.option_value format =? id)
          (map App.format_object fs) = true.
Proof.
  induction fs as [|f fs IH]; cbn [map In existsb]; [easy|].
  rewrite option_value_typed.
  intros [<- | H]; [now rewrite String.eqb_refl|].
  rewrite (IH H). apply orb_true_r.
Qed.

(** A lookup answered by a typed body, then the choice of one of its
    identifiers: the state a download starts from. *)
Lemma session_lookup_then_select (w : World) (h : list Op) (s : App.State)
    (response : Response) (vi : App.VideoInfo) (id : string) :
  App.renders s = true ->
  App.loading s = false -> form_valid (App.url s) = true ->
  net w (lookup_history h) (App.formats_request (App.url s)) = Value response ->
  ok response = true -> json response = Value (App.info_object vi) ->
  In id (map App.format_id (App.formats vi)) ->
  snd (App.session w h s [App.SubmitForm; App.SelectFormat id]) =
  {| App.url := App.url s; App.loading := false; App.message := "";
     App.error := ""; App.videoInfo := App.info_object vi;
     App.selectedFormat := VStr id |}.
Proof.
  intros Hr Hl Hv Hnet Hok Hjson Hin. cbn [App.session].
  rewrite (step_SubmitForm w h s Hr Hl Hv).
  rewrite (final_handleUrlSubmit_ok w h s response _ Hnet Hok Hjson).
  rewrite first_format_id_typed.
  set (s1 := {| App.url := App.url s; App.loading := false; App.message := "";
                App.error := ""; App.videoInfo := App.info_object vi;
                App.selectedFormat := _ |}).
  unfold App.step at 1. unfold App.enabled.
  rewrite (download_section_typed s1 vi eq_refl).
  rewrite (formats_items_typed s1 vi eq_refl).
  rewrite (existsb_option id _ Hin). reflexivity.
Qed.


(** C6, as amended.  The format identifier of a download is not checked for
    presence: on a page that shows the download section and is not loading,
    with a URL in the input, a click on Download sends exactly one request,
    whose body is the JSON text of [{url, format_id}] with the cells [url] and
    [selectedFormat] as they are, also when [selectedFormat] is the empty
    string. *)
Theorem download_request_carries_state (w : World) (h : list Op) (s : App.State) :
  App.download_section s = true -> App.loading s = false -> App.url s <> "" ->
  requests (fst (App.step w h s App.ClickDownload)) =
    [{| endpoint := "http://localhost:8000/download";
        method := "POST";
        headers := [("Content-Type", "application/json")];
        body := JSON_stringify
                  (VObj [("url", VStr (App.url s));
                         ("format_id", App.selectedFormat s)]) |}].
Proof.
  intros Hd Hl _. rewrite (step_ClickDownload w h s Hd Hl). cbn [fst].
  apply requests_handleDownload.
Qed.

Lemma or_else_string_not_empty (m fallback : string) :
  fallback <> "" -> or_else_string m fallback <> "".
Proof.
  intros Hf. unfold or_else_string.
  now destruct (String.eqb_spec m "").
Qed.



End Page.

(* ================================================================== *)
(** ** Failures                                                        *)
(* ================================================================== *)

Section Failures.
Import JS Effects RegExp Reading.
Context {B : Browser}.

(** The state after a download that failed. *)
Lemma final_handleDownload_failed (w : World) (h : list Op) (s : App.State) :
  let answer := net w (download_history h)
                    (App.download_request (App.url s) (App.selectedFormat s)) in
  forall m : string,
    match answer with
    | Thrown e => m = or_else_string (exn_message e) "Download failed"
    | Value response =>
        if ok response then
          match blob response with
          | Thrown e => m = or_else_string (exn_message e) "Download failed"
          | Value _ => False
          end
        else m = "Download failed"
    end ->
    App.final s (trace w h (App.handleDownload s)) =
    {| App.url := App.url s; App.loading := false;
       App.message := "Starting download...";
       App.error := m; App.videoInfo := App.videoInfo s;
       App.selectedFormat := App.selectedFormat s |}
    /\ errors_set (trace w h (App.handleDownload s)) = [m]
    /\ saved w h dom0 (trace w h (App.handleDownload s)) = [].
Proof.
  intros answer m. subst answer. rewrite trace_handleDownload.
  fold (download_history h).
  destruct (net w _ _) as [response|e].
  - destruct (ok response).
    + destruct (blob response) as [bytes|e]; [easy|]. now intros ->.
    + now intros ->.
  - now intros ->.
Qed.

Lemma requests_handleSubmit_relative (w : World) (h : list Op) (s : Card.State) :
  requests (trace w h (YouTubeDownloader.handleSubmit s)) =
  [Card.download_request "/api/download" (Card.url s)].
Proof.
  rewrite trace_handleSubmit_relative. cbn [app requests]. f_equal.
  destruct (net w _ _) as [response|e]; [|reflexivity].
  destruct (json response) as [data|e]; [|reflexivity].
  destruct (ok response).
  - now destruct (get data "downloadUrl").
  - now destruct (get data "message").
Qed.

Lemma requests_handleSubmit_absolute (w : World) (h : list Op) (s : Card.State) :
  requests (trace w h (YouTubeDownLoader.handleSubmit s)) =
  [Card.download_request "http://localhost:8000/api/download" (Card.url s)].
Proof.
  rewrite trace_handleSubmit_absolute. cbn [app requests]. f_equal.
  destruct (net w _ _) as [response|e]; [|reflexivity].
  destruct (ok response); [|reflexivity].
  destruct (json response) as [data|e]; [|reflexivity].
  now destruct (get data "downloadUrl").
Qed.

Lemma responses_handleSubmit_relative (w : World) (h : list Op) (s : Card.State) :
  responses w h (trace w h (YouTubeDownloader.handleSubmit s)) =
  [net w (card_history h) (Card.download_request "/api/download" (Card.url s))].
Proof.
  rewrite trace_handleSubmit_relative. cbn [app responses].
  repeat rewrite <- app_assoc. cbn [app]. unfold card_history. f_equal.
  destruct (net w _ _) as [response|e]; [|reflexivity].
  destruct (json response) as [data|e]; [|reflexivity].
  destruct (ok response).
  - now destruct (get data "downloadUrl").
  - now destruct (get data "message").
Qed.

Lemma responses_handleSubmit_absolute (w : World) (h : list Op) (s : Card.State) :
  responses w h (trace w h (YouTubeDownLoader.handleSubmit s)) =
  [net w (card_history h)
       (Card.download_request "http://localhost:8000/api/download" (Card.url s))].
Proof.
  rewrite trace_handleSubmit_absolute. cbn [app responses].
  repeat rewrite <- app_assoc. cbn [app]. unfold card_history. f_equal.
  destruct (net w _ _) as [response|e]; [|reflexivity].
  destruct (ok response); [|reflexivity].
  destruct (json response) as [data|e]; [|reflexivity].
  now destruct (get data "downloadUrl").
Qed.

Lemma final_handleSubmit_relative_failed (w : World) (h : list Op) (s : Card.State) :
  forall m : string,
    match net w (card_history h)
              (Card.download_request "/api/download" (Card.url s)) with
    | Thrown e => m = exn_message e
    | Value response =>
        match json response with
        | Thrown e => m = exn_message e
        | Value data =>
            if ok response then False
            else match get data "message" with
                 | Thrown e => m = exn_message e
                 | Value v =>
                     m = to_string (or_else v (VStr "Failed to download video"))
                 end
        end
    end ->
    Card.final s (trace w h (YouTubeDownloader.handleSubmit s)) = card_failed s m
    /\ errors_set (trace w h (YouTubeDownloader.handleSubmit s)) = [""; m].
Proof.
  intros m. rewrite trace_handleSubmit_relative. fold (card_history h).
  destruct (net w _ _) as [response|e]; [|now intros ->].
  destruct (json response) as [data|e]; [|now intros ->].
  destruct (ok response); [easy|].
  destruct (get data "message"); now intros ->.
Qed.

Lemma final_handleSubmit_absolute_failed (w : World) (h : list Op) (s : Card.State) :
  forall m : string,
    match net w (card_history h)
              (Card.download_request "http://localhost:8000/api/download"
                                     (Card.url s)) with
    | Thrown e => m = exn_message e
    | Value response =>
        if ok response then
          match json response with
          | Thrown e => m = exn_message e
          | Value _ => False
          end
        else m = "Failed to download video"
    end ->
    Card.final s (trace w h (YouTubeDownLoader.handleSubmit s)) = card_failed s m
    /\ errors_set (trace w h (YouTubeDownLoader.handleSubmit s)) = [""; m].
Proof.
  intros m. rewrite trace_handleSubmit_absolute. fold (card_history h).
  destruct (net w _ _) as [response|e]; [|now intros ->].
  destruct (ok response); [|now intros ->].
  destruct (json response) as [data|e]; [easy|]. now intros ->.
Qed.

End Failures.

Section FailureClaims.
Import JS Effects RegExp Reading Conduct.
Context {B : Browser}.

Lemma shown_after_lookup_failure (s : App.State) (m : string) :
  m <> "" ->
  App.error_shown
    {| App.url := App.url s; App.loading := false; App.message := "";
       App.error := m; App.videoInfo := VNull;
       App.selectedFormat := App.selectedFormat s |} = true.
Proof.
  intros Hm. unfold App.error_shown. cbn [App.error].
  apply String.eqb_neq in Hm. now rewrite Hm.
Qed.

Lemma shown_after_download_failure (s : App.State) (m : string) :
  App.renders s = true -> m <> "" ->
  App.error_shown
    {| App.url := App.url s; App.loading := false;
       App.message := "Starting download...";
       App.error := m; App.videoInfo := App.videoInfo s;
       App.selectedFormat := App.selectedFormat s |} = true.
Proof.
  intros Hr Hm. unfold App.error_shown. cbn [App.error].
  apply String.eqb_neq in Hm. rewrite Hm.
  unfold App.renders, App.section_renders, App.options, App.formats_items in *.
  cbn [App.videoInfo] in *. now rewrite Hr.
Qed.

(** C3, as amended.  Whatever the answer, a handler sends one request and none
    after it.  When the request fails (rejected fetch, status not ok, body that
    cannot be read), the handler sets the error once, after at most the
    clearing at its start, and the error cell holds that one string.  For a
    status that is not ok it is the fixed string of the handler; the first
    card prototype, which reads the body first, takes the string of the body's
    [message] when that is truthy, its fixed string when it is not, and the
    message of the exception when the body is [null] or cannot be read.  For a
    rejected fetch or a body that cannot be read it is the message of the
    exception, which [App] replaces by its fallback when it is empty.  [App]
    always shows the string; a card shows it unless it is empty. *)
Theorem failure_surfaces_one_message (w : World) (h : list Op)
    (a : App.State) (c : Card.State) :
  App.renders a = true ->
  (let t := trace w h (App.handleUrlSubmit a) in
   let s' := App.final a t in
   let surfaces := surfaces_always t (App.error s') (App.error_shown s') in
   length (requests t) = 1
   /\ (forall e, responses w h t = [Thrown e] ->
         surfaces (or_else_string (exn_message e) "Something went wrong"))
   /\ (forall r, responses w h t = [Value r] -> ok r = false ->
         surfaces "Failed to get video information")
   /\ (forall r e, responses w h t = [Value r] -> ok r = true ->
         json r = Thrown e ->
         surfaces (or_else_string (exn_message e) "Something went wrong")))
  /\
  (let t := trace w h (App.handleDownload a) in
   let s' := App.final a t in
   let surfaces := surfaces_always t (App.error s') (App.error_shown s') in
   length (requests t) = 1
   /\ (forall e, responses w h t = [Thrown e] ->
         surfaces (or_else_string (exn_message e) "Download failed"))
   /\ (forall r, responses w h t = [Value r] -> ok r = false ->
         surfaces "Download failed")
   /\ (forall r e, responses w h t = [Value r] -> ok r = true ->
         blob r = Thrown e ->
         surfaces (or_else_string (exn_message e) "Download failed")))
  /\
  (let t := trace w h (YouTubeDownloader.handleSubmit c) in
   let s' := Card.final c t in
   let surfaces := surfaces_unless_empty t (Card.error s') (Card.error_shown s') in
   length (requests t) = 1
   /\ (forall e, responses w h t = [Thrown e] -> surfaces (exn_message e))
   /\ (forall r e, responses w h t = [Value r] -> json r = Thrown e ->
         surfaces (exn_message e))
   /\ (forall r data v, responses w h t = [Value r] -> ok r = false ->
         json r = Value data -> get data "message" = Value v ->
         surfaces (to_string (or_else v (VStr "Failed to download video")))
         /\ (truthy v = false -> surfaces "Failed to download video"))
   /\ (forall r data e, responses w h t = [Value r] -> ok r = false ->
         json r = Value data -> get data "message" = Thrown e ->
         surfaces (exn_message e)))
  /\
  (let t := trace w h (YouTubeDownLoader.handleSubmit c) in
   let s' := Card.final c t in
   let surfaces := surfaces_unless_empty t (Card.error s') (Card.error_shown s') in
   length (requests t) = 1
   /\ (forall e, responses w h t = [Thrown e] -> surfaces (exn_message e))
   /\ (forall r, responses w h t = [Value r] -> ok r = false ->
         surfaces "Failed to download video")
   /\ (forall r e, responses w h t = [Value r] -> ok r = true ->
         json r = Thrown e ->
         surfaces (exn_message e))).
Proof.
  intros Hr. cbn zeta. unfold surfaces_always, surfaces_unless_empty.
  rewrite requests_handleUrlSubmit, requests_handleDownload,
    requests_handleSubmit_relative, requests_handleSubmit_absolute.
  rewrite responses_handleUrlSubmit, responses_handleDownload,
    responses_handleSubmit_relative, responses_handleSubmit_absolute.
  assert (Hlookup : forall m, m <> "" ->
    match net w (lookup_history h) (App.formats_request (App.url a)) with
    | Thrown e => m = or_else_string (exn_message e) "Something went wrong"
    | Value response =>
        if ok response then
          match json response with
          | Thrown e => m = or_else_string (exn_message e) "Something went wrong"
          | Value _ => False
          end
        else m = "Failed to get video information"
    end ->
    App.error (App.final a (trace w h (App.handleUrlSubmit a))) = m /\
    (errors_set (trace w h (App.handleUrlSubmit a)) = [m] \/
     errors_set (trace w h (App.handleUrlSubmit a)) = [""; m]) /\
    App.error_shown (App.final a (trace w h (App.handleUrlSubmit a))) = true).
  { intros m Hm H. destruct (final_handleUrlSubmit_failed w h a m H) as [-> ->].
    repeat split; [now right | now apply shown_after_lookup_failure]. }
  assert (Hdownload : forall m, m <> "" ->
    match net w (download_history h)
              (App.download_request (App.url a) (App.selectedFormat a)) with
    | Thrown e => m = or_else_string (exn_message e) "Download failed"
    | Value response =>
        if ok response then
          match blob response with
          | Thrown e => m = or_else_string (exn_message e) "Download failed"
          | Value _ => False
          end
        else m = "Download failed"
    end ->
    App.error (App.final a (trace w h (App.handleDownload a))) = m /\
    (errors_set (trace w h (App.handleDownload a)) = [m] \/
     errors_set (trace w h (App.handleDownload a)) = [""; m]) /\
    App.error_shown (App.final a (trace w h (App.handleDownload a))) = true).
  { intros m Hm H.
    destruct (final_handleDownload_failed w h a m H) as (-> & -> & _).
    repeat split; [now left | now apply shown_after_download_failure]. }
  assert (Hrelative : forall m,
    match net w (card_history h)
              (Card.download_request "/api/download" (Card.url c)) with
    | Thrown e => m = exn_message e
    | Value response =>
        match json response with
        | Thrown e => m = exn_message e
        | Value data =>
            if ok response then False
            else match get data "message" with
                 | Thrown e => m = exn_message e
                 | Value v =>
                     m = to_string (or_else v (VStr "Failed to download video"))
                 end
        end
    end ->
    Card.error (Card.final c (trace w h (YouTubeDownloader.handleSubmit c))) = m /\
    (errors_set (trace w h (YouTubeDownloader.handleSubmit c)) = [m] \/
     errors_set (trace w h (YouTubeDownloader.handleSubmit c)) = [""; m]) /\
    Card.error_shown (Card.final c (trace w h (YouTubeDownloader.handleSubmit c)))
      = negb (m =? "")).
  { intros m H. destruct (final_handleSubmit_relative_failed w h c m H) as [-> ->].
    repeat split. now right. }
  assert (Habsolute : forall m,
    match net w (card_history h)
              (Card.download_request "http://localhost:8000/api/download"
                                     (Card.url c)) with
    | Thrown e => m = exn_message e
    | Value response =>
        if ok response then
          match json response with
          | Thrown e => m = exn_message e
          | Value _ => False
          end
        else m = "Failed to download video"
    end ->
    Card.error (Card.final c (trace w h (YouTubeDownLoader.handleSubmit c))) = m /\
    (errors_set (trace w h (YouTubeDownLoader.handleSubmit c)) = [m] \/
     errors_set (trace w h (YouTubeDownLoader.handleSubmit c)) = [""; m]) /\
    Card.error_shown (Card.final c (trace w h (YouTubeDownLoader.handleSubmit c)))
      = negb (m =? "")).
  { intros m H. destruct (final_handleSubmit_absolute_failed w h c m H) as [-> ->].
    repeat split. now right. }
  assert (Hfallback : forall m f, f <> "" -> or_else_string m f <> "")
    by (intros m f; apply or_else_string_not_empty).
  split; [|split; [|split]]; (split; [reflexivity|]).
  - split; [|split].
    + intros e [= Hnet]. apply Hlookup; [apply Hfallback; discriminate|].
      now rewrite Hnet.
    + intros r [= Hnet] Hok. apply Hlookup; [discriminate|].
      now rewrite Hnet, Hok.
    + intros r e [= Hnet] Hok Hbody. apply Hlookup; [apply Hfallback; discriminate|].
      now rewrite Hnet, Hok, Hbody.
  - split; [|split].
    + intros e [= Hnet]. apply Hdownload; [apply Hfallback; discriminate|].
      now rewrite Hnet.
    + intros r [= Hnet] Hok. apply Hdownload; [discriminate|].
      now rewrite Hnet, Hok.
    + intros r e [= Hnet] Hok Hbody. apply Hdownload; [apply Hfallback; discriminate|].
      now rewrite Hnet, Hok, Hbody.
  - split; [|split; [|split]].
    + intros e [= Hnet]. apply Hrelative. now rewrite Hnet.
    + intros r e [= Hnet] Hbody. apply Hrelative. now rewrite Hnet, Hbody.
    + intros r data v [= Hnet] Hok Hbody Hget.
      assert (H : forall m,
                m = to_string (or_else v (VStr "Failed to download video")) ->
                Card.error (Card.final c (trace w h (YouTubeDownloader.handleSubmit c))) = m /\
                (errors_set (trace w h (YouTubeDownloader.handleSubmit c)) = [m] \/
                 errors_set (trace w h (YouTubeDownloader.handleSubmit c)) = [""; m]) /\
                Card.error_shown (Card.final c (trace w h (YouTubeDownloader.handleSubmit c)))
                  = negb (m =? "")).
      { intros m Hm. apply Hrelative. now rewrite Hnet, Hbody, Hok, Hget. }
      split; [now apply H|].
      intros Hv. apply H. unfold or_else. now rewrite Hv.
    + intros r data e [= Hnet] Hok Hbody Hget.
      apply Hrelative. now rewrite Hnet, Hbody, Hok, Hget.
  - split; [|split].
    + intros e [= Hnet]. apply Habsolute. now rewrite Hnet.
    + intros r [= Hnet] Hok. apply Habsolute. now rewrite Hnet, Hok.
    + intros r e [= Hnet] Hok Hbody. apply Habsolute. now rewrite Hnet, Hok, Hbody.
Qed.

End FailureClaims.

(* ================================================================== *)
(** ** The link of the card prototypes                                 *)
(* ================================================================== *)

Section Cards.
Import JS Effects RegExp Reading.
Context {B : Browser}.



(** The state of a card after a submission answered by an ok response with a
    readable body. *)
Lemma final_handleSubmit_relative_ok (w : World) (h : list Op) (s : Card.State)
    (response : Response) (data d : value) :
  net w (card_history h) (Card.download_request "/api/download" (Card.url s))
    = Value response ->
  ok response = true -> json response = Value data ->
  get data "downloadUrl" = Value d ->
  Card.final s (trace w h (YouTubeDownloader.handleSubmit s)) =
  {| Card.url := Card.url s; Card.loading := false; Card.error := "";
     Card.downloadLink := d |}.
Proof.
  intros Hnet Hok Hjson Hget. rewrite trace_handleSubmit_relative.
  fold (card_history h). now rewrite Hnet, Hjson, Hok, Hget.
Qed.

Lemma final_handleSubmit_absolute_ok (w : World) (h : list Op) (s : Card.State)
    (response : Response) (data d : value) :
  net w (card_history h)
      (Card.download_request "http://localhost:8000/api/download" (Card.url s))
    = Value response ->
  ok response = true -> json response = Value data ->
  get data "downloadUrl" = Value d ->
  Card.final s (trace w h (YouTubeDownLoader.handleSubmit s)) =
  {| Card.url := Card.url s; Card.loading := false; Card.error := "";
     Card.downloadLink := d |}.
Proof.
  intros Hnet Hok Hjson Hget. rewrite trace_handleSubmit_absolute.
  fold (card_history h). now rewrite Hnet, Hok, Hjson, Hget.
Qed.


End Cards.

(* ================================================================== *)
(** ** Loading, clearing, and what is left behind                      *)
(* ================================================================== *)

Section Discipline.
Import JS Effects RegExp Reading.
Context {B : Browser}.

(** [handleUrlSubmit] clears message, error and formats and raises [loading]
    before its request, and lowers [loading] on every path. *)
Lemma handleUrlSubmit_discipline (w : World) (h : list Op) (s : App.State) :
  let t := trace w h (App.handleUrlSubmit s) in
  at_fetch App.apply s t =
    {| App.url := App.url s; App.loading := true; App.message := "";
       App.error := ""; App.videoInfo := VNull;
       App.selectedFormat := App.selectedFormat s |}
  /\ App.loading (App.final s t) = false.
Proof.
  cbn zeta. rewrite trace_handleUrlSubmit. split; [reflexivity|].
  destruct (net w _ _) as [response|e]; [|reflexivity].
  destruct (ok response); [|reflexivity].
  destruct (json response) as [data|e]; [|reflexivity].
  now destruct (App.first_format_id data).
Qed.

(** The card handlers clear error and link and raise [loading] before their
    request, and lower [loading] on every path. *)
Lemma handleSubmit_discipline (w : World) (h : list Op) (s : Card.State) :
  (let t := trace w h (YouTubeDownloader.handleSubmit s) in
   at_fetch Card.apply s t =
     {| Card.url := Card.url s; Card.loading := true; Card.error := "";
        Card.downloadLink := VStr "" |}
   /\ Card.loading (Card.final s t) = false)
  /\
  (let t := trace w h (YouTubeDownLoader.handleSubmit s) in
   at_fetch Card.apply s t =
     {| Card.url := Card.url s; Card.loading := true; Card.error := "";
        Card.downloadLink := VStr "" |}
   /\ Card.loading (Card.final s t) = false).
Proof.
  cbn zeta. rewrite trace_handleSubmit_relative, trace_handleSubmit_absolute.
  repeat split.
  - destruct (net w _ _) as [response|e]; [|reflexivity].
    destruct (json response) as [data|e]; [|reflexivity].
    destruct (ok response).
    + now destruct (get data "downloadUrl").
    + now destruct (get data "message").
  - destruct (net w _ _) as [response|e]; [|reflexivity].
    destruct (ok response); [|reflexivity].
    destruct (json response) as [data|e]; [|reflexivity].
    now destruct (get data "downloadUrl").
Qed.

(** [handleDownload] raises [loading] and replaces the message before its
    request and lowers [loading] on every path, but the error of an earlier
    request is still in its cell when the request goes out, and still there
    after a download that succeeded. *)
Lemma handleDownload_discipline (w : World) (h : list Op) (s : App.State) :
  let t := trace w h (App.handleDownload s) in
  at_fetch App.apply s t =
    {| App.url := App.url s; App.loading := true;
       App.message := "Starting download...";
       App.error := App.error s; App.videoInfo := App.videoInfo s;
       App.selectedFormat := App.selectedFormat s |}
  /\ App.loading (App.final s t) = false
  /\ (forall response bytes,
        responses w h t = [Value response] -> ok response = true ->
        blob response = Value bytes ->
        App.error (App.final s t) = App.error s).
Proof.
  cbn zeta. rewrite responses_handleDownload. split; [|split].
  - now rewrite trace_handleDownload.
  - rewrite trace_handleDownload.
    destruct (net w _ _) as [response|e]; [|reflexivity].
    destruct (ok response); [|reflexivity].
    now destruct (blob response).
  - intros response bytes [= Hnet] Hok Hblob.
    now rewrite (final_handleDownload_ok w h s response bytes Hnet Hok Hblob).
Qed.

End Discipline.

(* ================================================================== *)
(** ** Sessions on the sample page                                     *)
(* ================================================================== *)

Section Sessions.
Import JS Effects RegExp Reading Conduct Sample Cases.

(** The sample states are states of the page: [ready] is where a lookup of
    [clip] and the choice of its format lead. *)
Lemma ready_reachable :
  snd (App.session (scripted [Value (formats_ok clip)]) [] App.initial
         [App.ChangeUrl watch; App.SubmitForm; App.SelectFormat "18"]) = ready.
Proof. reflexivity. Qed.

(** The pattern on some headers: a quoted name, a name without quotes, an
    empty name, and a second quoted parameter, which the greedy [.+] takes
    into the capture. *)
Example filename_quoted :
  App.filename
    (Some ("inline; filename=" ++ String quote ("clip.mp4" ++ String quote "")))
  = VStr "clip.mp4".
Proof. reflexivity. Qed.

Example filename_unquoted :
  App.filename (Some "attachment; filename=clip.mp4") = VStr "video.mp4".
Proof. reflexivity. Qed.

Example filename_empty :
  App.filename (Some (content_disposition "")) = VStr "video.mp4".
Proof. reflexivity. Qed.

Example filename_greedy :
  App.filename
    (Some (content_disposition "clip.mp4" ++ "; size=" ++ String quote ("12" ++ String quote "")))
  = VStr ("clip.mp4" ++ String quote ("; size=" ++ String quote "12")).
Proof. reflexivity. Qed.



(** The claim C3 fails, twice.  Two failures of one handler surface two
    different strings, the message of the rejected fetch and the string for a
    bad status.  And a failure can surface nothing: the first card, answered
    by a status that is not ok with an empty array as [message], sets the
    empty string, and its alert is not on the page. *)
Lemma failures_differ_or_stay_hidden :
  let rejected := App.step (scripted [offline]) [] typed App.SubmitForm in
  let refused := App.step (scripted [Value server_error]) [] typed App.SubmitForm in
  let w := scripted [Value refused_with_list] in
  let hidden := YouTubeDownloader.submit w [] card in
  (App.error (snd rejected) = "Failed to fetch"
   /\ App.error (snd refused) = "Failed to get video information"
   /\ App.error (snd rejected) <> App.error (snd refused))
  /\ (responses w [] (fst hidden) = [Value refused_with_list]
      /\ ok refused_with_list = false
      /\ errors_set (fst hidden) = [""; ""]
      /\ Card.error (snd hidden) = ""
      /\ Card.error_shown (snd hidden) = false).
Proof. cbn zeta. repeat split. discriminate. Qed.


(** The claim C9 fails: the body lists two formats, the first without
    [format_id]; the selection is the empty string, which is the identifier
    of none of them. *)
Lemma selection_empty_with_formats_listed :
  let w := scripted [Value first_unnamed] in
  let run := App.step w [] typed App.SubmitForm in
  responses w [] (fst run) = [Value first_unnamed]
  /\ ok first_unnamed = true
  /\ App.options (snd run) = Some [VUndefined; VStr "18"]
  /\ App.selectedFormat (snd run) = VStr ""
  /\ App.error (snd run) = "".
Proof. cbn zeta. repeat split. Qed.

(** The claim C6 fails: after a lookup that listed no format the Download
    button is on the page, and a click sends a request whose format identifier
    is the empty string. *)
Lemma empty_format_id_transmitted :
  let w := scripted [Value (formats_ok bare);
                     Value (file_ok (Some (content_disposition "clip.mp4")))] in
  requests (fst (App.session w [] App.initial
                   [App.ChangeUrl watch; App.SubmitForm; App.ClickDownload])) =
  [App.formats_request watch; App.download_request watch (VStr "")].
Proof. reflexivity. Qed.

(** C2 on the code.  The URL is checked when the form is submitted, not when
    Download is clicked: after a lookup the input can be emptied, or filled
    with text that is no URL, and the click sends that value to [/download]. *)
Theorem download_sends_unchecked_url :
  let w := scripted [Value (formats_ok clip);
                     Value (file_ok (Some (content_disposition "clip.mp4")))] in
  form_valid "" = false
  /\ form_valid "not a url" = false
  /\ requests (fst (App.session w [] App.initial
                      [App.ChangeUrl watch; App.SubmitForm;
                       App.ChangeUrl ""; App.ClickDownload])) =
     [App.formats_request watch; App.download_request "" (VStr "18")]
  /\ requests (fst (App.session w [] App.initial
                      [App.ChangeUrl watch; App.SubmitForm;
                       App.ChangeUrl "not a url"; App.ClickDownload])) =
     [App.formats_request watch; App.download_request "not a url" (VStr "18")].
Proof. cbn zeta. repeat split. Qed.

(** C10 on the code.  A download fails and the next one succeeds: the error of
    the first is in its cell when the second request goes out, and the page
    ends up showing both the error and the message of completion. *)
Theorem stale_error_after_download :
  let w := scripted [Value (formats_ok clip); Value server_error;
                     Value (file_ok (Some (content_disposition "clip.mp4")))] in
  let before := App.session w [] App.initial
                  [App.ChangeUrl watch; App.SubmitForm; App.ClickDownload] in
  let t := trace w (fst before) (App.handleDownload (snd before)) in
  let s := App.final (snd before) t in
  App.error (snd before) = "Download failed"
  /\ App.error (at_fetch App.apply (snd before) t) = "Download failed"
  /\ saved w (fst before) dom0 t = [("clip.mp4", bytes)]
  /\ App.loading s = false
  /\ App.message s = "Download complete: clip.mp4"
  /\ App.error s = "Download failed"
  /\ App.message_shown s = true /\ App.error_shown s = true.
Proof. cbn zeta. repeat split. Qed.

End Sessions.

(* ================================================================== *)
(** ** The theorems on the sample page                                 *)
(* ================================================================== *)

Section Instances.
Import JS Effects RegExp Reading Conduct Sample.


(** A lookup of [clip] from the typed page. *)
Lemma lookup_request_and_stored_info_witness :
  let w := scripted [Value (formats_ok clip)] in
  let t := trace w [] (App.handleUrlSubmit typed) in
  requests t = [App.formats_request watch]
  /\ App.videoInfo (App.final typed t) = App.info_object clip
  /\ App.options (App.final typed t) = Some [VStr "18"].
Proof.
  cbn zeta.
  destruct (lookup_request_and_stored_info
              (scripted [Value (formats_ok clip)]) [] typed) as (Hreq & _ & Htyped).
  split; [exact Hreq|].
  exact (Htyped (formats_ok clip) clip eq_refl eq_refl eq_refl).
Defined.

Lemma selected_format_initialised_witness :
  let w := scripted [Value (formats_ok clip)] in
  let t := trace w [] (App.handleUrlSubmit typed) in
  (responses w [] t = [Value (formats_ok clip)]
   /\ ok (formats_ok clip) = true
   /\ json (formats_ok clip) = Value (App.info_object clip)
   /\ get (App.info_object clip) "formats" =
        Value (VArr [App.format_object mp4_360]))
  /\ App.selectedFormat (App.final typed t) = VStr "18".
Proof.
  cbn zeta. split; [repeat split|].
  destruct (selected_format_initialised
              (scripted [Value (formats_ok clip)]) [] typed
              (formats_ok clip) (App.info_object clip)
              [App.format_object mp4_360] eq_refl eq_refl eq_refl eq_refl)
    as (_ & _ & Hid & _).
  exact (Hid (App.format_object mp4_360) [] "18" eq_refl eq_refl).
Defined.

Lemma saved_filename_fallback_or_capture_witness :
  let w := scripted [Value (file_ok None)] in
  let t := trace w [] (App.handleDownload ready) in
  (responses w [] t = [Value (file_ok None)]
   /\ ok (file_ok None) = true
   /\ blob (file_ok None) = Value bytes)
  /\ exists name, saved w [] dom0 t = [(name, bytes)] /\ name = "video.mp4".
Proof.
  cbn zeta. split; [repeat split|].
  exact (saved_filename_fallback_or_capture
           (scripted [Value (file_ok None)]) [] ready (file_ok None) bytes
           eq_refl eq_refl eq_refl).
Defined.

(** The page after a lookup that listed no format: the download request goes
    out with the empty identifier. *)
Lemma download_request_carries_state_witness :
  let w := scripted [Value (file_ok clip_header)] in
  let s := {| App.url := watch; App.loading := false; App.message := "";
              App.error := ""; App.videoInfo := App.info_object bare;
              App.selectedFormat := VStr "" |} in
  (App.download_section s = true /\ App.loading s = false /\ App.url s <> "")
  /\ requests (fst (App.step w [] s App.ClickDownload)) =
     [App.download_request watch (VStr "")].
Proof.
  cbn zeta. split; [repeat split; discriminate|].
  apply (download_request_carries_state (scripted [Value (file_ok clip_header)]) []);
    [reflexivity | reflexivity | discriminate].
Defined.


Lemma failure_surfaces_one_message_witness :
  let w := scripted [Value server_error] in
  let t := trace w [] (App.handleDownload ready) in
  App.renders ready = true
  /\ length (requests t) = 1
  /\ surfaces_always t (App.error (App.final ready t))
       (App.error_shown (App.final ready t)) "Download failed".
Proof.
  cbn zeta. split; [reflexivity|].
  destruct (failure_surfaces_one_message (scripted [Value server_error]) []
              ready card eq_refl)
    as (_ & (Hone & _ & Hstatus & _) & _).
  split; [exact Hone|].
  exact (Hstatus server_error eq_refl eq_refl).
Defined.


End Instances.

(* ================================================================== *)
(** ** Whole sessions on the page of [App]                             *)
(* ================================================================== *)

Section WholeSessions.
Import JS Effects RegExp Reading Conduct.
Context {B : Browser}.

Lemma requests_app (a b : list Op) :
  requests (a ++ b) = (requests a ++ requests b)%list.
Proof.
  induction a as [|o a IH]; [reflexivity|].
  destruct o; cbn [app requests]; now rewrite ?IH.
Qed.

Lemma session_cons (w : World) (h : list Op) (s : App.State)
    (ev : App.Event) (rest : list App.Event) :
  App.session w h s (ev :: rest) =
  let first := App.step w h s ev in
  let others := App.session w (h ++ fst first) (snd first) rest in
  ((fst first ++ fst others)%list, snd others).
Proof.
  cbn [App.session]. destruct (App.step w h s ev) as [t s']. cbn [fst snd].
  now destruct (App.session w (h ++ t) s' rest).
Qed.

(** What one event does: nothing when the page does not let it through, and
    otherwise what its handler does. *)
Lemma step_cases (w : World) (h : list Op) (s : App.State) (ev : App.Event) :
  App.step w h s ev = ([], s)
  \/ (exists v, ev = App.ChangeUrl v /\ App.step w h s ev = ([], App.setUrl v s))
  \/ (ev = App.SubmitForm /\ App.loading s = false /\
      form_valid (App.url s) = true /\
      App.step w h s ev =
        (trace w h (App.handleUrlSubmit s),
         App.final s (trace w h (App.handleUrlSubmit s))))
  \/ (exists v items, ev = App.SelectFormat v /\ App.download_section s = true /\
      App.formats_items s = Some items /\
      existsb (fun format => App.option_value format =? v) items = true /\
      App.step w h s ev =
        ([SetSelectedFormat (VStr v)], App.apply s (SetSelectedFormat (VStr v))))
  \/ (ev = App.ClickDownload /\ App.download_section s = true /\
      App.loading s = false /\
      App.step w h s ev =
        (trace w h (App.handleDownload s),
         App.final s (trace w h (App.handleDownload s)))).
Proof.
  unfold App.step, App.enabled. destruct ev as [v| |v|].
  - destruct (App.renders s); [|now left]. right. left. now exists v.
  - destruct (App.renders s); cbn [andb]; [|now left].
    destruct (App.loading s); cbn [negb andb]; [now left|].
    destruct (form_valid (App.url s)); [|now left].
    right. right. left. now repeat split.
  - destruct (App.download_section s); cbn [andb]; [|now left].
    destruct (App.formats_items s) as [items|]; [|now left].
    destruct (existsb _ items) eqn:E; [|now left].
    right. right. right. left. exists v, items. now repeat split.
  - destruct (App.download_section s); cbn [andb]; [|now left].
    destruct (App.loading s); cbn [negb]; [now left|].
    right. right. right. right. now repeat split.
Qed.


(** A property that holds of the requests of every event holds of those of a
    session. *)
Lemma session_requests (w : World) (Q : Request -> Prop) :
  (forall h s ev, Forall Q (requests (fst (App.step w h s ev)))) ->
  forall evs h s, Forall Q (requests (fst (App.session w h s evs))).
Proof.
  intros Hstep. induction evs as [|ev rest IH]; intros h s; [constructor|].
  rewrite session_cons. cbn zeta. cbn [fst]. rewrite requests_app.
  apply Forall_app. split; [apply Hstep | apply IH].
Qed.



Lemma step_requests (w : World) (h : list Op) (s : App.State) (ev : App.Event) :
  requests (fst (App.step w h s ev)) = []
  \/ (form_valid (App.url s) = true /\
      requests (fst (App.step w h s ev)) = [App.formats_request (App.url s)])
  \/ (App.download_section s = true /\
      requests (fst (App.step w h s ev)) =
        [App.download_request (App.url s) (App.selectedFormat s)]).
Proof.
  destruct (step_cases w h s ev)
    as [E | [(v & _ & E) | [(_ & _ & Hv & E) | [(v & vs & _ & _ & _ & _ & E) | (_ & Hd & _ & E)]]]];
    rewrite E; cbn [fst]; try (now left).
  - right. left. split; [exact Hv | apply requests_handleUrlSubmit].
  - right. right. split; [exact Hd | apply requests_handleDownload].
Qed.

(** X2.  An event sends at most one request: a session of [n] events sends at
    most [n] requests, whatever the answers. *)
Theorem session_one_request_per_event (w : World) (evs : list App.Event) :
  forall (h : list Op) (s : App.State),
  length (requests (fst (App.session w h s evs))) <= length evs.
Proof.
  induction evs as [|ev rest IH]; intros h s; [apply le_n|].
  rewrite session_cons. cbn zeta. cbn [fst]. rewrite requests_app, length_app.
  specialize (IH (h ++ fst (App.step w h s ev))%list (snd (App.step w h s ev))).
  destruct (step_requests w h s ev) as [E | [(_ & E) | (_ & E)]];
    rewrite E; cbn [length]; lia.
Qed.

(** X3.  Every request to [/formats], in every session and from every state,
    carries a URL that passed the validation of the form: it is not empty and
    the browser takes it for a URL. *)
Theorem session_lookup_urls_checked (w : World) (evs : list App.Event)
    (h : list Op) (s : App.State) :
  Forall lookup_url_checked (requests (fst (App.session w h s evs))).
Proof.
  revert h s. revert evs. apply session_requests. intros h s ev.
  destruct (step_requests w h s ev) as [E | [(Hv & E) | (_ & E)]]; rewrite E.
  - constructor.
  - constructor; [|constructor]. intros _. now exists (App.url s).
  - constructor; [|constructor]. intros E'. discriminate E'.
Qed.

Lemma download_section_setUrl (v : string) (s : App.State) :
  App.download_section (App.setUrl v s) = App.download_section s.
Proof. reflexivity. Qed.

(** X4.  No download before a lookup: from a page without the download
    section (the initial page is one), the first request of a session, if
    there is any, goes to [/formats]. *)
Theorem session_first_request_is_lookup (w : World) (evs : list App.Event) :
  forall (h : list Op) (s : App.State),
  App.download_section s = false ->
  match requests (fst (App.session w h s evs)) with
  | [] => True
  | r :: _ => exists u, form_valid u = true /\ r = App.formats_request u
  end.
Proof.
  induction evs as [|ev rest IH]; intros h s Hs; [exact I|].
  rewrite session_cons. cbn zeta. cbn [fst]. rewrite requests_app.
  destruct (step_cases w h s ev)
    as [E | [(v & _ & E) | [(_ & _ & Hv & E) | [(v & vs & _ & Hd & _) | (_ & Hd & _)]]]];
    try congruence; rewrite E; cbn [fst snd].
  - now apply IH.
  - apply IH. now rewrite download_section_setUrl.
  - rewrite requests_handleUrlSubmit. cbn [app]. now exists (App.url s).
Qed.

End WholeSessions.

(* ================================================================== *)
(** ** What a handler changes, and how it ends                         *)
(* ================================================================== *)

Section Outcomes.
Import JS Effects RegExp Reading Conduct.
Context {B : Browser}.

(** [handleDownload] writes [loading], [message] and [error] only. *)
Lemma handleDownload_frame (w : World) (h : list Op) (s : App.State) :
  let s' := App.final s (trace w h (App.handleDownload s)) in
  App.url s' = App.url s /\ App.videoInfo s' = App.videoInfo s /\
  App.selectedFormat s' = App.selectedFormat s.
Proof.
  cbn zeta. rewrite trace_handleDownload.
  destruct (net w _ _) as [response|e]; [|now repeat split].
  destruct (ok response); [|now repeat split].
  now destruct (blob response).
Qed.




(** An error in its cell is on the page when the page is. *)
Lemma error_shown_of_error (s : App.State) :
  App.error s <> "" -> App.error_shown s = App.renders s.
Proof.
  intros H. unfold App.error_shown. apply String.eqb_neq in H. rewrite H.
  apply andb_true_r.
Qed.

(** X6.  A lookup ends in one of two ways.  Either the answer was ok, its body
    was read and line 51 ran: then the body is in [videoInfo], the selection
    is set from it, and the error is empty.  Or the error cell holds a string
    that is not empty, and the alert with it is on the page exactly when [App]
    still renders.  In both cases [loading] is false, the message of an
    earlier download is gone, and the URL is untouched. *)
Theorem lookup_ends_stored_or_with_error (w : World) (h : list Op) (s : App.State) :
  let t := trace w h (App.handleUrlSubmit s) in
  let s' := App.final s t in
  ((exists response data selected,
      responses w h t = [Value response] /\ ok response = true /\
      json response = Value data /\
      App.first_format_id data = Value selected /\
      s' = {| App.url := App.url s; App.loading := false; App.message := "";
              App.error := ""; App.videoInfo := data;
              App.selectedFormat := selected |})
   \/ (App.error s' <> "" /\ App.error_shown s' = App.renders s'))
  /\ App.loading s' = false /\ App.message s' = "" /\ App.url s' = App.url s.
Proof.
  cbn zeta. rewrite responses_handleUrlSubmit, trace_handleUrlSubmit.
  fold (lookup_history h).
  assert (Herr : forall s0 : App.State,
    App.error s0 <> "" ->
    App.error s0 <> "" /\ App.error_shown s0 = App.renders s0).
  { intros s0 H. split; [exact H | now apply error_shown_of_error]. }
  assert (Hfallback : forall m, or_else_string m "Something went wrong" <> "")
    by (intros m; apply or_else_string_not_empty; discriminate).
  destruct (net w _ _) as [response|e].
  - destruct (ok response) eqn:Hok.
    + destruct (json response) as [data|e] eqn:Hjson.
      * destruct (App.first_format_id data) as [selected|e] eqn:Hsel.
        -- repeat split. left. exists response, data, selected. now repeat split.
        -- repeat split. right. apply Herr. apply Hfallback.
      * repeat split. right. apply Herr. apply Hfallback.
    + repeat split. right. apply Herr. discriminate.
  - repeat split. right. apply Herr. apply Hfallback.
Qed.

(** X7.  A download ends in one of two ways.  Either the answer was ok and its
    body was read: then that body is saved once, the handler sets no error,
    and the message names the file.  Or nothing is saved, the handler sets
    the error once to a string that is not empty, and the message stays
    ["Starting download..."]. *)
Theorem download_saves_or_shows_error (w : World) (h : list Op) (s : App.State) :
  let t := trace w h (App.handleDownload s) in
  let s' := App.final s t in
  (exists response bytes name,
     responses w h t = [Value response] /\ ok response = true /\
     blob response = Value bytes /\
     saved w h dom0 t = [(name, bytes)] /\ errors_set t = [] /\
     App.message s' = "Download complete: " ++ name)
  \/
  (saved w h dom0 t = [] /\
   exists m, m <> "" /\ errors_set t = [m] /\ App.error s' = m /\
             App.message s' = "Starting download...").
Proof.
  cbn zeta. rewrite responses_handleDownload.
  destruct (net w (download_history h) _) as [response|e] eqn:Hnet.
  - destruct (ok response) eqn:Hok.
    + destruct (blob response) as [bytes|e] eqn:Hblob.
      * left. exists response, bytes,
          (to_string (App.filename (headers_get response "Content-Disposition"))).
        rewrite (saved_handleDownload w h s response bytes dom0 Hnet Hok Hblob).
        rewrite (final_handleDownload_ok w h s response bytes Hnet Hok Hblob).
        repeat split; try reflexivity; try assumption.
        rewrite trace_handleDownload.
        fold (download_history h). now rewrite Hnet, Hok, Hblob.
      * right.
        destruct (final_handleDownload_failed w h s
                    (or_else_string (exn_message e) "Download failed"))
          as (-> & -> & ->); [now rewrite Hnet, Hok, Hblob|].
        split; [reflexivity|]. eexists. repeat split.
        apply or_else_string_not_empty. discriminate.
    + right.
      destruct (final_handleDownload_failed w h s "Download failed")
        as (-> & -> & ->); [now rewrite Hnet, Hok|].
      split; [reflexivity|]. eexists. repeat split. discriminate.
  - right.
    destruct (final_handleDownload_failed w h s
                (or_else_string (exn_message e) "Download failed"))
      as (-> & -> & ->); [now rewrite Hnet|].
    split; [reflexivity|]. eexists. repeat split.
    apply or_else_string_not_empty. discriminate.
Qed.

(** X8.  A download, failed or not, leaves the page ready for the next one:
    the URL, the format list and its options, the selection and the download
    section are what they were. *)
Theorem download_keeps_the_list (w : World) (h : list Op) (s : App.State) :
  let s' := App.final s (trace w h (App.handleDownload s)) in
  App.url s' = App.url s /\ App.videoInfo s' = App.videoInfo s /\
  App.selectedFormat s' = App.selectedFormat s /\
  App.options s' = App.options s /\
  App.download_section s' = App.download_section s.
Proof.
  cbn zeta. destruct (handleDownload_frame w h s) as (Hu & Hv & Hs).
  assert (Ho : App.options (App.final s (trace w h (App.handleDownload s)))
               = App.options s) by (unfold App.options; now rewrite Hv).
  assert (Hd : App.download_section (App.final s (trace w h (App.handleDownload s)))
               = App.download_section s)
    by (unfold App.download_section, App.section_renders, App.formats_items;
        now rewrite Ho, Hv).
  now repeat split.
Qed.

End Outcomes.

(* ================================================================== *)
(** ** More on the name of the saved file                              *)
(* ================================================================== *)

Section SavedName.
Import JS Effects RegExp Reading Conduct.
Context {B : Browser}.

Lemma all_dot_app (a b : string) : all_dot (a ++ b) = all_dot a && all_dot b.
Proof.
  induction a as [|c a IH]; cbn [append all_dot]; [reflexivity|].
  now rewrite IH, andb_assoc.
Qed.

Lemma append_last (a : string) (c : ascii) (b : string) :
  (a ++ String c "") ++ b = a ++ String c b.
Proof. induction a as [|x a IH]; cbn [append]; [reflexivity | now rewrite IH]. Qed.

Lemma append_middle (a : string) (c : ascii) (b d : string) :
  (a ++ String c b) ++ d = a ++ String c (b ++ d).
Proof. induction a as [|x a IH]; cbn [append]; [reflexivity | now rewrite IH]. Qed.

(** Two splits of one string: the longer first part extends the shorter. *)
Lemma append_longer (a x b y : string) :
  a ++ x = b ++ y -> String.length a < String.length b ->
  exists c, c <> "" /\ b = a ++ c /\ x = c ++ y.
Proof.
  revert b; induction a as [|k a IH]; intros b E L.
  - cbn [append] in E. exists b. repeat split; [|now symmetry].
    intros ->. cbn in L. lia.
  - destruct b as [|k' b]; cbn in L; [lia|].
    cbn [append] in E. injection E as <- E.
    destruct (IH b E) as (c & Hc & -> & ->); [lia|].
    exists c. now repeat split.
Qed.

(** The name computed from any header is a string, not empty and free of line
    terminators. *)
Lemma filename_is_a_name (contentDisposition : option string) :
  exists name,
    App.filename contentDisposition = VStr name /\
    name <> "" /\ all_dot name = true.
Proof.
  unfold App.filename, App.filenameMatch.
  destruct contentDisposition as [header|];
    [|exists "video.mp4"; repeat split; discriminate].
  destruct (header =? "");
    [exists "video.mp4"; repeat split; discriminate|].
  unfold string_match.
  destruct (exec_from filename_pattern 0 header) as [m|] eqn:Hexec;
    [|exists "video.mp4"; repeat split; discriminate].
  destruct (exec_from_some _ _ _ Hexec)
    as (pre & cap & post & (_ & Hne & Hd) & _ & _ & Hg & _).
  exists cap. unfold App.element. rewrite Hg. now repeat split.
Qed.

(** What a download saves: nothing, or the body of the answer under the name
    computed from its header. *)
Lemma saved_handleDownload_cases (w : World) (h : list Op) (s : App.State) :
  saved w h dom0 (trace w h (App.handleDownload s)) = []
  \/ exists response bytes,
       saved w h dom0 (trace w h (App.handleDownload s)) =
       [(to_string (App.filename (headers_get response "Content-Disposition")),
         bytes)].
Proof.
  destruct (net w (download_history h)
                (App.download_request (App.url s) (App.selectedFormat s)))
    as [response|e] eqn:Hnet.
  - destruct (ok response) eqn:Hok.
    + destruct (blob response) as [bytes|e] eqn:Hblob.
      * right. exists response, bytes. now apply saved_handleDownload.
      * left. apply (final_handleDownload_failed w h s
                       (or_else_string (exn_message e) "Download failed")).
        now rewrite Hnet, Hok, Hblob.
    + left. apply (final_handleDownload_failed w h s "Download failed").
      now rewrite Hnet, Hok.
  - left. apply (final_handleDownload_failed w h s
                   (or_else_string (exn_message e) "Download failed")).
    now rewrite Hnet.
Qed.

(** X9.  Whatever the server sends, a file that a download saves has a name
    that is not empty and holds no line terminator (so never the text of
    [undefined] for a missing capture either, since every match fills the
    group). *)
Theorem saved_name_is_never_empty (w : World) (h : list Op) (s : App.State)
    (name : string) (bytes : Blob) :
  In (name, bytes) (saved w h dom0 (trace w h (App.handleDownload s))) ->
  name <> "" /\ all_dot name = true.
Proof.
  destruct (saved_handleDownload_cases w h s) as [-> | (response & b & ->)];
    [intros []|].
  intros [E | []]. injection E as <- _.
  destruct (filename_is_a_name (headers_get response "Content-Disposition"))
    as (n & -> & Hne & Hd).
  now split.
Qed.

(** X10.  Where [header.match(/filename="(.+)"/)] succeeds, element 0 is the
    text [filename="cap"] found at [index], element 1 is [cap], and the match
    is greedy: what follows it in the header has no double quote before its
    first line terminator. *)
Theorem match_is_located_and_greedy (header : string) (m : MatchResult) :
  string_match header filename_pattern = Some m ->
  exists pre cap post,
    header = pre ++ matched m ++ post /\
    index m = String.length pre /\
    matched m = "filename=" ++ String quote (cap ++ String quote "") /\
    App.element m 1 = VStr cap /\
    forall a b, post = a ++ String quote b -> all_dot a = false.
Proof.
  unfold string_match. intros Hexec.
  destruct (exec_from_some _ _ _ Hexec)
    as (pre & cap & post & (E & Hne & Hd) & Hi & Hm & Hg & Hmin).
  exists pre, cap, post. rewrite Hm. unfold App.element. rewrite Hg.
  repeat split; try assumption.
  - rewrite E. cbn [append]. now rewrite append_last.
  - intros a b ->. destruct (all_dot a) eqn:Ha; [|reflexivity].
    assert (Hocc : occurrence header pre (cap ++ String quote a) b).
    { repeat split.
      - rewrite E. do 2 f_equal. cbn [append]. f_equal.
        symmetry. apply append_middle.
      - destruct cap; discriminate.
      - rewrite all_dot_app, Hd. cbn [all_dot]. now rewrite Ha. }
    destruct (Hmin _ _ _ Hocc) as [_ Hlen]. specialize (Hlen eq_refl).
    rewrite length_append in Hlen. cbn [String.length] in Hlen. lia.
Qed.

(** X11.  A header with further parameters: when [filename="name"] is the
    first occurrence of the pattern in the header and no double quote follows
    its closing quote, the name computed is [name], even if [name] itself
    holds double quotes. *)
Theorem filename_of_first_quoted_parameter (header pre name post : string) :
  occurrence header pre name post ->
  (forall pre' cap' post', occurrence header pre' cap' post' ->
     String.length pre <= String.length pre') ->
  (forall a b, post <> a ++ String quote b) ->
  App.filename (Some header) = VStr name.
Proof.
  intros Hocc Hfirst Hlast.
  destruct (filename_spec (Some header)) as (cap & E & _ & Hcap).
  rewrite E. f_equal.
  destruct Hcap as (pre' & post' & Hocc' & Hmin);
    [now exists pre, name, post|].
  destruct (Hmin _ _ _ Hocc) as [Hle Hlen].
  pose proof (Hfirst _ _ _ Hocc') as Hge.
  destruct Hocc as (E1 & _ & _), Hocc' as (E2 & _ & _).
  assert (Hpre : String.length pre' = String.length pre) by lia.
  rewrite E1 in E2.
  destruct (append_same_length _ _ _ _ E2 (eq_sym Hpre)) as [-> E3].
  apply append_cancel_l in E3. injection E3 as E3.
  specialize (Hlen eq_refl).
  destruct (Nat.eq_dec (String.length name) (String.length cap)) as [L|L].
  - now destruct (append_same_length _ _ _ _ E3 L).
  - destruct (append_longer _ _ _ _ E3) as (c & Hc & _ & Hx); [lia|].
    destruct c as [|k c]; [now elim Hc|].
    cbn [append] in Hx. injection Hx as <- Hx.
    elim (Hlast _ _ Hx).
Qed.

End SavedName.

(* ================================================================== *)
(** ** The document after a download, and bodies of another shape      *)
(* ================================================================== *)

Section Edges.
Import JS Effects RegExp Reading Conduct Document.
Context {B : Browser}.

Lemma filter_incl {A : Type} (f : A -> bool) (l : list A) : incl (filter f l) l.
Proof. intros x Hx. now apply filter_In in Hx. Qed.

(** X12.  A download leaves the document as it found it, on every path: an
    object URL that is alive afterwards was alive before (the one the handler
    creates is revoked), and as many anchors are attached to the body as
    before (the one it appends is removed). *)
Theorem download_leaves_document_clean (w : World) (h : list Op) (s : App.State)
    (l : list (string * Blob)) (n : nat) :
  let t := trace w h (App.handleDownload s) in
  incl (live_after w h l t) l /\ attached_after n t = n.
Proof.
  cbn zeta. rewrite trace_handleDownload.
  destruct (net w _ _) as [response|e]; [|split; [apply incl_refl | reflexivity]].
  destruct (ok response); [|split; [apply incl_refl | reflexivity]].
  destruct (blob response) as [bytes|e]; [|split; [apply incl_refl | reflexivity]].
  split; [|reflexivity].
  cbn [app live_after]. repeat rewrite <- app_assoc. cbn [app filter fst].
  rewrite String.eqb_refl. cbn [negb]. apply filter_incl.
Qed.

(** X13.  An ok answer whose body is an object without [formats] is stored all
    the same; reading [formats[0]] then throws, so the error cell holds the
    message of that [TypeError] (or the fallback when the engine gives none)
    and the selection keeps its old value.  But the stored body cannot be
    rendered, [videoInfo.formats.map] throws: [App] is no longer on the page,
    its error alert is not shown, and no event reaches a handler any more. *)
Theorem lookup_body_without_formats (w : World) (h : list Op) (s : App.State)
    (response : Response) (fields : list (string * value)) :
  let t := trace w h (App.handleUrlSubmit s) in
  let s' := App.final s t in
  responses w h t = [Value response] -> ok response = true ->
  json response = Value (VObj fields) -> assoc "formats" fields = None ->
  App.videoInfo s' = VObj fields
  /\ App.error s' =
       or_else_string (type_error_message false "0") "Something went wrong"
  /\ App.selectedFormat s' = App.selectedFormat s
  /\ App.options s' = None
  /\ App.download_section s' = false
  /\ App.renders s' = false
  /\ App.error_shown s' = false
  /\ forall ev, App.enabled s' ev = false.
Proof.
  cbn zeta. rewrite responses_handleUrlSubmit. intros [= Hnet] Hok Hjson Hnone.
  rewrite (final_handleUrlSubmit_ok w h s response _ Hnet Hok Hjson).
  unfold App.first_format_id. cbn [get]. rewrite Hnone.
  cbn [from_option and_then get_index].
  set (s' := {| App.url := App.url s; App.videoInfo := VObj fields |}).
  assert (Ho : App.options s' = None)
    by (unfold App.options; subst s'; cbn [App.videoInfo get];
        now rewrite Hnone).
  assert (Hs : App.section_renders s' = false)
    by (unfold App.section_renders; now rewrite Ho).
  assert (Hd : App.download_section s' = false)
    by (unfold App.download_section; rewrite Hs; apply andb_false_r).
  assert (Hr : App.renders s' = false)
    by (unfold App.renders; rewrite Hs; reflexivity).
  repeat split; try assumption.
  - unfold App.error_shown. now rewrite Hr.
  - intros [v| |v|]; unfold App.enabled; now rewrite ?Hr, ?Hd.
Qed.

(** X14.  A first format without identifier: when [formats[0]] is [null] or an
    object without [format_id], the body is stored, the selection is the empty
    string, and no error is set. *)
Theorem lookup_first_format_without_id (w : World) (h : list Op) (s : App.State)
    (response : Response) (data first : value) (others : list value) :
  let t := trace w h (App.handleUrlSubmit s) in
  let s' := App.final s t in
  responses w h t = [Value response] -> ok response = true ->
  json response = Value data ->
  get data "formats" = Value (VArr (first :: others)) ->
  get_optional first "format_id" = Value VUndefined ->
  App.videoInfo s' = data /\ App.selectedFormat s' = VStr "" /\
  App.error s' = "".
Proof.
  cbn zeta. rewrite responses_handleUrlSubmit.
  intros [= Hnet] Hok Hjson Hformats Hid.
  rewrite (final_handleUrlSubmit_ok w h s response _ Hnet Hok Hjson).
  unfold App.first_format_id. rewrite Hformats. cbn [and_then get_index nth].
  rewrite Hid. now repeat split.
Qed.

End Edges.

(* ================================================================== *)
(** ** Sessions on the card pages                                      *)
(* ================================================================== *)

Section CardSessions.
Import JS Effects RegExp Reading Conduct.
Context {B : Browser}.

(** A submission on a card: rejected by the page, or handled. *)
Lemma card_submit_cases (w : World) (h : list Op) (s : Card.State) :
  (YouTubeDownloader.submit w h s = ([], s)
   \/ (form_valid (Card.url s) = true /\
       YouTubeDownloader.submit w h s =
         (trace w h (YouTubeDownloader.handleSubmit s),
          Card.final s (trace w h (YouTubeDownloader.handleSubmit s)))))
  /\
  (YouTubeDownLoader.submit w h s = ([], s)
   \/ (form_valid (Card.url s) = true /\
       YouTubeDownLoader.submit w h s =
         (trace w h (YouTubeDownLoader.handleSubmit s),
          Card.final s (trace w h (YouTubeDownLoader.handleSubmit s))))).
Proof.
  unfold YouTubeDownloader.submit, YouTubeDownLoader.submit, Card.submit_enabled.
  destruct (negb (Card.loading s || (Card.url s =? ""))); cbn [andb];
    [|split; now left].
  destruct (form_valid (Card.url s)); split; (now left) || (right; now split).
Qed.

Lemma card_session_cons
    (submit : World -> list Op -> Card.State -> list Op * Card.State)
    (w : World) (h : list Op) (s : Card.State)
    (ev : CardPage.Event) (rest : list CardPage.Event) :
  CardPage.session submit w h s (ev :: rest) =
  let first := CardPage.step submit w h s ev in
  let others := CardPage.session submit w (h ++ fst first) (snd first) rest in
  ((fst first ++ fst others)%list, snd others).
Proof.
  cbn [CardPage.session]. destruct (CardPage.step submit w h s ev) as [t s'].
  cbn [fst snd]. now destruct (CardPage.session submit w (h ++ t) s' rest).
Qed.

(** X15.  On both card pages, in every session and from every state, each
    request goes to the [/api/download] of the prototype and carries a URL
    that passed the validation of the form: no request is sent for an empty or
    ill-formed URL. *)
Theorem card_session_urls_checked (w : World) (evs : list CardPage.Event) :
  forall (h : list Op) (s : Card.State),
  Forall (card_url_checked "/api/download")
    (requests (fst (CardPage.session YouTubeDownloader.submit w h s evs)))
  /\
  Forall (card_url_checked "http://localhost:8000/api/download")
    (requests (fst (CardPage.session YouTubeDownLoader.submit w h s evs))).
Proof.
  induction evs as [|ev rest IH]; intros h s; [split; constructor|].
  rewrite !card_session_cons. cbn zeta. cbn [fst]. rewrite !requests_app.
  destruct (card_submit_cases w h s) as (H1 & H2).
  split; apply Forall_app; (split; [|apply IH]); destruct ev as [v|];
    cbn [CardPage.step fst]; try constructor.
  - destruct H1 as [-> | (Hv & ->)]; cbn [fst]; [constructor|].
    rewrite requests_handleSubmit_relative.
    constructor; [|constructor]. now exists (Card.url s).
  - destruct H2 as [-> | (Hv & ->)]; cbn [fst]; [constructor|].
    rewrite requests_handleSubmit_absolute.
    constructor; [|constructor]. now exists (Card.url s).
Qed.

(** Both card handlers lower [loading] on every path. *)
Lemma handleSubmit_loading (w : World) (h : list Op) (s : Card.State) :
  Card.loading (Card.final s (trace w h (YouTubeDownloader.handleSubmit s))) = false /\
  Card.loading (Card.final s (trace w h (YouTubeDownLoader.handleSubmit s))) = false.
Proof.
  rewrite trace_handleSubmit_relative, trace_handleSubmit_absolute. split.
  - destruct (net w _ _) as [response|e]; [|reflexivity].
    destruct (json response) as [data|e]; [|reflexivity].
    destruct (ok response).
    + now destruct (get data "downloadUrl").
    + now destruct (get data "message").
  - destruct (net w _ _) as [response|e]; [|reflexivity].
    destruct (ok response); [|reflexivity].
    destruct (json response) as [data|e]; [|reflexivity].
    now destruct (get data "downloadUrl").
Qed.

(** The handlers of the cards end with the error or the link, not both. *)
Lemma card_handlers_one_outcome (w : World) (h : list Op) (s : Card.State) :
  one_outcome (Card.final s (trace w h (YouTubeDownloader.handleSubmit s))) /\
  one_outcome (Card.final s (trace w h (YouTubeDownLoader.handleSubmit s))).
Proof.
  unfold one_outcome.
  rewrite trace_handleSubmit_relative, trace_handleSubmit_absolute. split.
  - destruct (net w _ _) as [response|e]; [|reflexivity].
    destruct (json response) as [data|e]; [|reflexivity].
    destruct (ok response).
    + destruct (get data "downloadUrl"); [discriminate | reflexivity].
    + now destruct (get data "message").
  - destruct (net w _ _) as [response|e]; [|reflexivity].
    destruct (ok response); [|reflexivity].
    destruct (json response) as [data|e]; [|reflexivity].
    destruct (get data "downloadUrl"); [discriminate | reflexivity].
Qed.

(** X16.  A card never shows an error together with a link, and is never left
    loading: both hold after every session that starts from a state where they
    hold, such as the initial one. *)
Theorem card_session_one_outcome (w : World) (evs : list CardPage.Event) :
  forall (h : list Op) (s : Card.State),
  one_outcome s -> Card.loading s = false ->
  (one_outcome (snd (CardPage.session YouTubeDownloader.submit w h s evs)) /\
   Card.loading (snd (CardPage.session YouTubeDownloader.submit w h s evs)) = false)
  /\
  (one_outcome (snd (CardPage.session YouTubeDownLoader.submit w h s evs)) /\
   Card.loading (snd (CardPage.session YouTubeDownLoader.submit w h s evs)) = false).
Proof.
  induction evs as [|ev rest IH]; intros h s Hs Hl; [now repeat split|].
  rewrite !card_session_cons. cbn zeta. cbn [snd].
  destruct (card_submit_cases w h s) as (H1 & H2).
  destruct (handleSubmit_loading w h s) as (L1 & L2).
  destruct (card_handlers_one_outcome w h s) as (O1 & O2).
  split.
  - apply IH; destruct ev as [v|]; cbn [CardPage.step snd]; try assumption;
      destruct H1 as [-> | (_ & ->)]; cbn [snd]; assumption.
  - apply IH; destruct ev as [v|]; cbn [CardPage.step snd]; try assumption;
      destruct H2 as [-> | (_ & ->)]; cbn [snd]; assumption.
Qed.

(** X17.  An ok answer whose body is an object without [downloadUrl] ends a
    submission on a card silently: no link is shown and no error either. *)
Theorem card_body_without_link (w : World) (h : list Op) (s : Card.State)
    (fields : list (string * value)) :
  assoc "downloadUrl" fields = None ->
  (forall response,
     responses w h (trace w h (YouTubeDownloader.handleSubmit s)) = [Value response] ->
     ok response = true -> json response = Value (VObj fields) ->
     let s' := Card.final s (trace w h (YouTubeDownloader.handleSubmit s)) in
     Card.link s' = None /\ Card.error_shown s' = false /\ Card.loading s' = false)
  /\
  (forall response,
     responses w h (trace w h (YouTubeDownLoader.handleSubmit s)) = [Value response] ->
     ok response = true -> json response = Value (VObj fields) ->
     let s' := Card.final s (trace w h (YouTubeDownLoader.handleSubmit s)) in
     Card.link s' = None /\ Card.error_shown s' = false /\ Card.loading s' = false).
Proof.
  intros Hnone.
  rewrite responses_handleSubmit_relative, responses_handleSubmit_absolute.
  assert (Hget : get (VObj fields) "downloadUrl" = Value VUndefined)
    by (cbn [get]; now rewrite Hnone).
  split; intros response [= Hnet] Hok Hjson; cbn zeta.
  - now rewrite (final_handleSubmit_relative_ok w h s response _ _ Hnet Hok Hjson Hget).
  - now rewrite (final_handleSubmit_absolute_ok w h s response _ _ Hnet Hok Hjson Hget).
Qed.

End CardSessions.

(* ================================================================== *)
(** ** These theorems on the sample pages                              *)
(* ================================================================== *)

Section MoreInstances.
Import JS Effects RegExp Reading Conduct Document Sample Cases.


Lemma session_first_request_is_lookup_witness :
  let w := scripted [Value (formats_ok clip); Value (file_ok clip_header)] in
  App.download_section App.initial = false
  /\ match requests (fst (App.session w [] App.initial visit)) with
     | [] => True
     | r :: _ => exists u, form_valid u = true /\ r = App.formats_request u
     end.
Proof.
  cbn zeta. split; [reflexivity|].
  now apply session_first_request_is_lookup.
Defined.


Lemma saved_name_is_never_empty_witness :
  let w := scripted [Value (file_ok clip_header)] in
  In ("clip.mp4", bytes) (saved w [] dom0 (trace w [] (App.handleDownload ready)))
  /\ "clip.mp4" <> "" /\ all_dot "clip.mp4" = true.
Proof.
  cbn zeta. split; [now left|].
  apply (saved_name_is_never_empty (scripted [Value (file_ok clip_header)]) []
           ready "clip.mp4" bytes).
  now left.
Defined.

Lemma match_is_located_and_greedy_witness :
  string_match (content_disposition "clip.mp4") filename_pattern = Some clip_match
  /\ exists pre cap post,
       content_disposition "clip.mp4" = pre ++ matched clip_match ++ post /\
       index clip_match = String.length pre /\
       matched clip_match = "filename=" ++ String quote (cap ++ String quote "") /\
       App.element clip_match 1 = VStr cap /\
       forall a b, post = a ++ String quote b -> all_dot a = false.
Proof.
  split; [reflexivity|].
  now apply match_is_located_and_greedy.
Defined.

Lemma filename_of_first_quoted_parameter_witness :
  occurrence header_with_size "attachment; " "clip.mp4" "; size=12"
  /\ App.filename (Some header_with_size) = VStr "clip.mp4".
Proof.
  assert (Hocc : occurrence header_with_size "attachment; " "clip.mp4" "; size=12")
    by (repeat split; discriminate).
  split; [exact Hocc|].
  apply (filename_of_first_quoted_parameter header_with_size
           "attachment; " "clip.mp4" "; size=12" Hocc).
  - intros pre' cap' post' (E & _). unfold header_with_size in E.
    do 12 (destruct pre' as [|? pre']; [discriminate E|];
           cbn in E; injection E as _ E).
    cbn. lia.
  - intros a b E.
    do 9 (destruct a as [|? a]; [discriminate E|]; cbn in E; injection E as _ E).
    destruct a; discriminate E.
Defined.

Lemma lookup_body_without_formats_witness :
  let w := scripted [Value formats_missing] in
  let t := trace w [] (App.handleUrlSubmit typed) in
  (responses w [] t = [Value formats_missing]
   /\ ok formats_missing = true
   /\ json formats_missing = Value (VObj title_only)
   /\ assoc "formats" title_only = None)
  /\ App.videoInfo (App.final typed t) = VObj title_only
  /\ App.error (App.final typed t) =
       "Cannot read properties of undefined (reading '0')".
Proof.
  cbn zeta. split; [now repeat split|].
  destruct (lookup_body_without_formats (scripted [Value formats_missing]) []
              typed formats_missing title_only eq_refl eq_refl eq_refl eq_refl)
    as (Hv & He & _).
  split; [exact Hv | exact He].
Defined.

Lemma lookup_first_format_without_id_witness :
  let w := scripted [Value first_null] in
  let t := trace w [] (App.handleUrlSubmit typed) in
  (responses w [] t = [Value first_null] /\ ok first_null = true)
  /\ App.selectedFormat (App.final typed t) = VStr ""
  /\ App.error (App.final typed t) = "".
Proof.
  cbn zeta. split; [now repeat split|].
  destruct (lookup_first_format_without_id (scripted [Value first_null]) []
              typed first_null _ VNull [] eq_refl eq_refl eq_refl eq_refl eq_refl)
    as (_ & Hs & He).
  split; [exact Hs | exact He].
Defined.

Lemma card_session_one_outcome_witness :
  let w := scripted [Value server_error] in
  (one_outcome Card.initial /\ Card.loading Card.initial = false)
  /\ one_outcome (snd (CardPage.session YouTubeDownLoader.submit w []
                         Card.initial card_visit)).
Proof.
  cbn zeta.
  assert (Hs : one_outcome Card.initial) by (intros H; discriminate H).
  split; [now split|].
  exact (proj1 (proj2 (card_session_one_outcome (scripted [Value server_error])
                         card_visit [] Card.initial Hs eq_refl))).
Defined.

Lemma card_body_without_link_witness :
  let w := scripted [Value link_missing] in
  let s' := Card.final card (trace w [] (YouTubeDownLoader.handleSubmit card)) in
  assoc "downloadUrl" queued = None
  /\ Card.link s' = None /\ Card.error_shown s' = false.
Proof.
  cbn zeta. split; [reflexivity|].
  destruct (card_body_without_link (scripted [Value link_missing]) [] card
              queued eq_refl) as (_ & H).
  destruct (H link_missing eq_refl eq_refl eq_refl) as (Hl & He & _).
  split; [exact Hl | exact He].
Defined.

End MoreInstances.
